(** * Scan-block parser and coordinate aggregator of [streamlit_app.py]

    A shallow embedding of [looks_like_datetime], [load_data],
    [summarise_metrics] and the per-file loop of [main], together with the
    pandas operations these functions call, and the properties of the
    specification that can be settled on them.

    Conventions of the embedding.
    - A Python [str] is a [string]; a character is a code point below 256.
    - The open file [fh] is the list of raw lines that iterating it yields
      (each with its line terminator, if it has one).
    - Python's [float] type is a parameter [F] of the development, with the
      builtin [float(...)] conversion, the missing marker NaN and the
      arithmetic that pandas uses on it; rounding is not modelled.
    - An exception is a value of [exn]; a function that can raise returns a
      sum [exn + A].
    - A pandas DataFrame is a [Frame]: the length of its RangeIndex and its
      columns in order, each a label with one cell per row. *)

From Stdlib Require Import Ascii String QArith.
From stdpp Require Import base option list gmap strings pretty sorting.


(* ================================================================== *)
(** * Python strings *)

Module Py.

(** Characters that [str.strip()] removes: the code points below 256
    for which [str.isspace()] holds. *)
Definition isspace (c : ascii) : bool :=
  match c with
  | "009" | "010" | "011" | "012" | "013"
  | "028" | "029" | "030" | "031" | " "
  | "133" | "160" => true
  | _ => false
  end%char.

(** [\d] on code points below 256. *)
Definition isdigit (c : ascii) : bool :=
  match c with
  | "0" | "1" | "2" | "3" | "4" | "5" | "6" | "7" | "8" | "9" => true
  | _ => false
  end%char.

Fixpoint lstrip (s : string) : string :=
  match s with
  | String c s' => if isspace c then lstrip s' else s
  | EmptyString => EmptyString
  end.

Fixpoint rstrip (s : string) : string :=
  match s with
  | String c s' =>
      match rstrip s' with
      | EmptyString => if isspace c then EmptyString else String c EmptyString
      | r => String c r
      end
  | EmptyString => EmptyString
  end.

(** [s.strip()] *)
Definition strip (s : string) : string := rstrip (lstrip s).

(** [s.split(sep)] for a one-character separator: never empty, one more
    field than there are separators. *)
Fixpoint split (sep : ascii) (s : string) : list string :=
  match s with
  | EmptyString => [EmptyString]
  | String c s' =>
      if Ascii.eqb c sep then EmptyString :: split sep s'
      else match split sep s' with
           | f :: fs => String c f :: fs
           | [] => [String c EmptyString]
           end
  end.

(** [s.startswith(p)] *)
Definition startswith (p s : string) : bool := String.prefix p s.

(** Truth value of a string: [not line] is true exactly on the empty
    string. *)
Definition truthy (s : string) : bool :=
  match s with EmptyString => false | _ => true end.

End Py.

(* ================================================================== *)
(** * The fragment of [re] that the timestamp pattern uses *)

Module Re.

Inductive regex : Type :=
| Digit                         (* \d      *)
| Chr (c : ascii)               (* literal *)
| Times (n : nat) (r : regex)   (* r{n}    *)
| Cat (r1 r2 : regex).          (* r1 r2   *)

(** Runs [k] on what is left after [n] matches of [m] in a row. *)
Fixpoint times (m : string -> option string) (n : nat) (s : string)
  : option string :=
  match n with
  | O => Some s
  | S n' => match m s with Some s' => times m n' s' | None => None end
  end.

(** Matches [r] at the start of [s]; the result is the text after the
    match.  The patterns below have no alternatives, so there is no
    backtracking. *)
Fixpoint run (r : regex) (s : string) : option string :=
  match r with
  | Digit =>
      match s with
      | String c s' => if Py.isdigit c then Some s' else None
      | EmptyString => None
      end
  | Chr a =>
      match s with
      | String c s' => if Ascii.eqb c a then Some s' else None
      | EmptyString => None
      end
  | Times n r' => times (run r') n s
  | Cat r1 r2 => match run r1 s with Some s' => run r2 s' | None => None end
  end.

(** [re.match(r, s)] as a truth value: a match object or [None]. *)
Definition match_ (r : regex) (s : string) : bool :=
  match run r s with Some _ => true | None => false end.

End Re.

(** The pattern [\d{4}-\d{2}-\d{2}T\d{2}:\d{2}:\d{2}]. *)
Definition datetime_pattern : Re.regex :=
  let d2 := Re.Times 2 Re.Digit in
  Re.Cat (Re.Times 4 Re.Digit)
    (Re.Cat (Re.Chr "-") (Re.Cat d2
    (Re.Cat (Re.Chr "-") (Re.Cat d2
    (Re.Cat (Re.Chr "T") (Re.Cat d2
    (Re.Cat (Re.Chr ":") (Re.Cat d2
    (Re.Cat (Re.Chr ":") d2))))))))).

(** [looks_like_datetime(txt)], used only for its truth value. *)
Definition looks_like_datetime (txt : string) : bool :=
  Re.match_ datetime_pattern txt.

(* ================================================================== *)
(** * Exceptions and floats *)

(** The exceptions that the modelled code raises.  [StopIteration] comes
    from [next(fh)] at the end of the file, [ValueError] from [float(...)]
    on text that is no number and from pandas on a length mismatch,
    [KeyError] from [DataFrame.drop] on a missing label. *)
Inductive exn : Type := StopIteration | ValueError | KeyError.

Global Instance exn_eq_dec : EqDecision exn.
Proof. solve_decision. Defined.

(** Sequencing of computations that can raise. *)
Definition bind_exn {A B : Type} (m : exn + A) (k : A -> exn + B) : exn + B :=
  match m with inl e => inl e | inr a => k a end.

Notation "'try' x <- m ; k" := (bind_exn m (fun x => k))
  (at level 10, x pattern, m at level 100, k at level 200, only parsing).

(** Python floats.  [float s] is the builtin conversion of a string, with
    [None] for the [ValueError] it raises; [nan] is the missing marker of
    pandas and [isnan] recognises it; the remaining fields are the
    arithmetic that the row-wise mean and median use. *)
Class PyFloat : Type := {
  F : Type;
  float : string -> option F;
  nan : F;
  isnan : F -> bool;
  fadd : F -> F -> F;
  fdiv : F -> F -> F;
  of_nat : nat -> F;
  fle : F -> F -> bool;
}.

(* ================================================================== *)
(** * pandas frames *)

Record Frame (A : Type) : Type := mkFrame {
  index : nat;                          (* RangeIndex(index) *)
  columns : list (string * list A);     (* label, cells by row *)
}.
Arguments mkFrame {A} _ _.
Arguments index {A} _.
Arguments columns {A} _.

Module Pd.
Section Frames.
Context {A : Type}.

(** [df.columns] *)
Definition names (df : Frame A) : list string := (columns df).*1.

(** [pd.DataFrame()] *)
Definition empty : Frame A := mkFrame 0 [].

(** [df.drop(columns=labels)]: every label must be present. *)
Definition drop (labels : list string) (df : Frame A) : exn + Frame A :=
  if forallb (fun l => bool_decide (l ∈ names df)) labels
  then inr (mkFrame (index df)
              (filter (fun c => c.1 ∉ labels) (columns df)))
  else inl KeyError.

(** Stores [value] under [key]: in place of every column that has the
    label, or as a new last column. *)
Definition set_column (key : string) (value : list A) (df : Frame A)
  : Frame A :=
  mkFrame (index df)
    (if bool_decide (key ∈ names df)
     then (fun c => if bool_decide (c.1 = key) then (key, value) else c)
            <$> columns df
     else columns df ++ [(key, value)]).

(** [df[labels]] for labels taken from [df.columns]. *)
Definition select (labels : list string) (df : Frame A) : Frame A :=
  mkFrame (index df) (filter (fun c => c.1 ∈ labels) (columns df)).

(** The cells of row [r], in column order. *)
Definition row (r : nat) (df : Frame A) : list A :=
  omap (fun c => c.2 !! r) (columns df).

(** [df[key]] *)
Definition getitem (key : string) (df : Frame A) : option (list A) :=
  snd <$> head (filter (fun c => c.1 = key) (columns df)).

(** Every column has one cell per index entry. *)
Definition lengths_ok (df : Frame A) : Prop :=
  Forall (fun c => length c.2 = index df) (columns df).

End Frames.
End Pd.

(* ================================================================== *)
(** * [load_data]: the scan-block parser *)

Section Parser.
Context {PF : PyFloat}.

(** The dictionary appended to [blocks], with its seven keys. *)
Record ScanBlock : Type := mkBlock {
  DateTime : string;
  Height : F;
  Gab : F;
  Angle : F;
  FixedPointHeight : F;
  X : list F;
  Y : list F;
}.

(** [[cell.strip() for cell in line.split(";")]] *)
Definition parts_of (line : string) : list string :=
  Py.strip <$> Py.split ";" line.

(** The condition of the [continue] that skips headers:
    [len(parts) != 5 or not looks_like_datetime(parts[0])]. *)
Definition skipped (parts : list string) : bool :=
  negb (length parts =? 5) || negb (looks_like_datetime (hd "" parts)).

(** [next(fh).strip().split(";")[2:]] on the line that [next] returned. *)
Definition row_cells (raw : string) : list string :=
  drop 2 (Py.split ";" (Py.strip raw)).

(** [list(map(float, row))]: [None] when some cell raises. *)
Definition floats (cells : list string) : option (list F) :=
  mapM float cells.

(** The dictionary display of lines 34-42; its values are evaluated in
    order and the first [float] that fails raises [ValueError]. *)
Definition make_block (ts h gab ang fph : string) (x_row y_row : list string)
  : option ScanBlock :=
  h' ← float h; gab' ← float gab; ang' ← float ang; fph' ← float fph;
  xs ← floats x_row; ys ← floats y_row;
  Some (mkBlock ts h' gab' ang' fph' xs ys).

(** The [for raw in fh] loop.  [fh] is what is left of the file and
    [blocks] the list built so far; the result is the final value of
    [blocks] and the exception that left the loop, if any.  The three
    [next(fh)] calls take the next three raw lines, whatever they hold.
    The unpacking [ts, h, gab, ang, fph = parts] of line 24 raises
    [ValueError] on a list that has not five entries; the test of line 22
    has excluded such a list before. *)
Fixpoint parse_loop (fh : list string) (blocks : list ScanBlock)
  : list ScanBlock * option exn :=
  match fh with
  | [] => (blocks, None)
  | raw :: fh1 =>
      let line := Py.strip raw in
      if negb (Py.truthy line) then parse_loop fh1 blocks
      else
        let parts := parts_of line in
        if skipped parts then parse_loop fh1 blocks
        else
          match parts with
          | [ts; h; gab; ang; fph] =>
              match fh1 with
              | _ :: x_raw :: y_raw :: fh4 =>
                  match make_block ts h gab ang fph
                          (row_cells x_raw) (row_cells y_raw) with
                  | Some b => parse_loop fh4 (blocks ++ [b])
                  | None => (blocks, Some ValueError)
                  end
              | _ => (blocks, Some StopIteration)
              end
          | _ => (blocks, Some ValueError)
          end
  end.

(** A cell of [pd.DataFrame(blocks)]. *)
Inductive pyval : Type :=
| VStr (s : string)
| VFloat (f : F)
| VList (l : list F).

(** [pd.DataFrame(blocks)] for a list of dictionaries with the same keys:
    one row per dictionary, one column per key; no column at all when the
    list is empty. *)
Definition frame_of_records (blocks : list ScanBlock) : Frame pyval :=
  match blocks with
  | [] => Pd.empty
  | _ =>
      mkFrame (length blocks)
        [ ("DateTime", (fun b => VStr (DateTime b)) <$> blocks);
          ("Height", (fun b => VFloat (Height b)) <$> blocks);
          ("Gab", (fun b => VFloat (Gab b)) <$> blocks);
          ("Angle", (fun b => VFloat (Angle b)) <$> blocks);
          ("FixedPointHeight", (fun b => VFloat (FixedPointHeight b)) <$> blocks);
          ("X", (fun b => VList (X b)) <$> blocks);
          ("Y", (fun b => VList (Y b)) <$> blocks) ]
  end.

(** A column reindexed to [RangeIndex(n)]: the cells it has at the labels
    below [n], and NaN at the labels it does not have. *)
Definition reindex (n : nat) (cells : list F) : list F :=
  take n (cells ++ replicate (n - length cells) nan).

(** pandas' [_ensure_valid_index]: a frame without rows takes the index of
    the first non-empty list stored in it; the columns it already has are
    reindexed, which fills their new rows with NaN. *)
Definition ensure_valid_index (n : nat) (df : Frame F) : Frame F :=
  if (index df =? 0) && (0 <? n)
  then mkFrame n ((fun c => (c.1, reindex n c.2)) <$> columns df)
  else df.

(** [df[key] = value] for a Python list [value]: after the index has been
    settled the list must have one entry per row. *)
Definition setitem_list (key : string) (value : list F) (df : Frame F)
  : exn + Frame F :=
  let df' := ensure_valid_index (length value) df in
  if length value =? index df' then inr (Pd.set_column key value df')
  else inl ValueError.

(** The loop of lines 49-51 from block number [i] on. *)
Fixpoint coordinates_loop (i : nat) (blocks : list ScanBlock)
    (df_coordinates : Frame F) : exn + Frame F :=
  match blocks with
  | [] => inr df_coordinates
  | block :: rest =>
      try df1 <- setitem_list ("x_" +:+ pretty i) (X block) df_coordinates;
      try df2 <- setitem_list ("y_" +:+ pretty i) (Y block) df1;
      coordinates_loop (S i) rest df2
  end.

(** Lines 44-53: the two tables built from [blocks]. *)
Definition tables (blocks : list ScanBlock) : exn + (Frame pyval * Frame F) :=
  try df_meta <- Pd.drop ["X"; "Y"] (frame_of_records blocks);
  try df_coordinates <- coordinates_loop 0 blocks Pd.empty;
  inr (df_meta, df_coordinates).

(** [load_data] on the raw lines of the file. *)
Definition load_data (fh : list string) : exn + (Frame pyval * Frame F) :=
  match parse_loop fh [] with
  | (_, Some e) => inl e
  | (blocks, None) => tables blocks
  end.

End Parser.

(* ================================================================== *)
(** * [summarise_metrics]: the coordinate aggregator *)

Section Aggregator.
Context {PF : PyFloat}.

(** The cells that a reduction with [skipna=True] keeps. *)
Definition present (vs : list F) : list F :=
  filter (fun v => isnan v = false) vs.

Definition total (vs : list F) : F := foldl fadd (of_nat 0) vs.

(** pandas' [nanmean] of one row: the sum of the cells that are present
    over their number, NaN when there is none. *)
Definition nanmean (vs : list F) : F :=
  match present vs with
  | [] => nan
  | xs => fdiv (total xs) (of_nat (length xs))
  end.

(** pandas' [nanmedian] of one row: the middle of the sorted present
    cells, the mean of the two middle ones when their number is even. *)
Definition nanmedian (vs : list F) : F :=
  let xs := merge_sort (fun a b => fle a b) (present vs) in
  let n := length xs in
  if n =? 0 then nan
  else if Nat.odd n then default nan (xs !! (n / 2))
  else fdiv (fadd (default nan (xs !! (n / 2 - 1))) (default nan (xs !! (n / 2))))
         (of_nat 2).

(** [df.mean(axis=1)] and [df.median(axis=1)]: one value per index entry. *)
Definition mean_axis1 (df : Frame F) : list F :=
  (fun r => nanmean (Pd.row r df)) <$> seq 0 (index df).

Definition median_axis1 (df : Frame F) : list F :=
  (fun r => nanmedian (Pd.row r df)) <$> seq 0 (index df).

(** One round of the loop over [["x","y"]] (lines 58-60), on the frame
    that [df] names at that point.  The Series stored has the index of
    the frame, so it is stored as it is. *)
Definition summarise_step (col_name : string) (df : Frame F) : Frame F :=
  let col_list := filter (fun c => Py.startswith col_name c) (Pd.names df) in
  let df1 :=
    Pd.set_column ("mean_" +:+ col_name) (mean_axis1 (Pd.select col_list df)) df in
  Pd.set_column ("median_" +:+ col_name)
    (median_axis1 (Pd.select col_list df1)) df1.

(** The frames that exist, by object identity. *)
Definition loc : Type := positive.

(** [summarise_metrics(df)]: [df.copy()] makes a new object that holds the
    cells of the argument, the local name [df] is bound to it, the loop
    updates that object in place, and it is returned.  [None] stands for
    a reference to no object, which Python cannot produce. *)
Definition summarise_metrics (h : gmap loc (Frame F)) (df : loc)
  : option (gmap loc (Frame F) * loc) :=
  frame ← h !! df;
  let df' := fresh (dom h) in
  let h1 := <[df' := frame]> h in
  Some (foldl (fun h' col_name => alter (summarise_step col_name) df' h')
          h1 ["x"; "y"], df').

(** What the returned object holds. *)
Definition summary_of (df : Frame F) : Frame F :=
  summarise_step "y" (summarise_step "x" df).

End Aggregator.

(* ================================================================== *)
(** * The per-file loop of [main] *)

Section Main.
Context {PF : PyFloat}.

(** An uploaded file: its name and the raw lines that its bytes decode
    to. *)
Record Upload : Type := mkUpload {
  name : string;
  getbuffer : list string;
}.

(** The working directory: file name to contents. *)
Abbreviation files := (gmap string (list string)).

(** The presentation calls of lines 139-160 ([create_plot], [st.pyplot],
    [st.dataframe]), which belong to streamlit and matplotlib: they return
    or raise. *)
Variable show : Frame pyval -> Frame F -> exn + unit.

(** The body of the [try] (lines 128-163) after the upload has been
    written to [fs]: the tables are loaded from the file just written and
    summarised, shown, and then the file is unlinked. *)
Definition try_body (fs : files) (uploaded_file : Upload) : exn + files :=
  try (df_meta, df_coordinates) <-
    load_data (default [] (fs !! name uploaded_file));
  let df_summary := summary_of df_coordinates in
  try _ <- show df_meta df_summary;
  inr (delete (name uploaded_file) fs).

(** One round of the loop of line 124: the file system afterwards and the
    error reported by the [except] clause, if any.  The handler (line 166)
    only reports. *)
Definition process_upload (fs : files) (uploaded_file : Upload)
  : files * option exn :=
  let fs1 := <[name uploaded_file := getbuffer uploaded_file]> fs in
  match try_body fs1 uploaded_file with
  | inr fs2 => (fs2, None)
  | inl e => (fs1, Some e)
  end.

(** The whole loop: the final file system and the reports, in order. *)
Fixpoint main_loop (fs : files) (uploaded_files : list Upload)
  : files * list (option exn) :=
  match uploaded_files with
  | [] => (fs, [])
  | u :: rest =>
      let '(fs1, report) := process_upload fs u in
      let '(fs2, reports) := main_loop fs1 rest in
      (fs2, report :: reports)
  end.

End Main.

(* ================================================================== *)
(** * An instance of the floats, to run the model on sample files *)

Module Decimal.

(** Numbers are exact rationals in lowest terms; [None] is NaN. *)
Definition num : Type := option Q.

Fixpoint digits (acc : Z) (s : string) : option Z :=
  match s with
  | EmptyString => Some acc
  | String c s' => d ← Ascii.is_nat c; digits (10 * acc + Z.of_nat d) s'
  end.

(** An unsigned literal [ddd], [ddd.ddd], [ddd.] or [.ddd]. *)
Definition unsigned (s : string) : option Q :=
  match Py.split "." s with
  | [i] => if Py.truthy i then n ← digits 0 i; Some (n # 1)%Q else None
  | [i; f] =>
      if Py.truthy i || Py.truthy f then
        n ← digits 0 i; m ← digits 0 f;
        let k := Pos.pow 10 (Pos.of_nat (String.length f)) in
        let k := if Py.truthy f then k else 1%positive in
        Some (Qred ((n * Zpos k + m) # k))
      else None
  | _ => None
  end.

(** The literals of [float(...)] that the sample files use: decimal
    numbers with an optional sign, and [nan]. *)
Definition read (s : string) : option num :=
  let t := Py.strip s in
  if bool_decide (t = "nan") then Some None
  else match t with
       | String "-" u => q ← unsigned u; Some (Some (Qred (- q)))
       | String "+" u => Some <$> unsigned u
       | _ => Some <$> unsigned t
       end.

Definition add (a b : num) : num :=
  a' ← a; b' ← b; Some (Qred (a' + b')).

Definition div (a b : num) : num :=
  a' ← a; b' ← b;
  if Qeq_bool b' 0 then None else Some (Qred (a' / b')).

Definition le (a b : num) : bool :=
  match a, b with
  | Some a', Some b' => Qle_bool a' b'
  | _, _ => false
  end.

Definition floats : PyFloat := {|
  F := num;
  float := read;
  nan := None;
  isnan := fun v => match v with None => true | Some _ => false end;
  fadd := add;
  fdiv := div;
  of_nat := fun n => Some (Z.of_nat n # 1)%Q;
  fle := le;
|}.

End Decimal.

(** Sample files. *)
Definition nl : string := String "010" EmptyString.

Definition line (s : string) : string := s +:+ nl.

Definition scenario_file : list string :=
  [ line "2025-05-26T14:58:59;10.0;2.0;0.0;1.5";
    line "SCAN";
    line "X;;1.0;2.0";
    line "Y;;3.0;4.0" ].

(** The scenario with a header line in front. *)
Definition header_file : list string :=
  line "DateTime;Height;Gab;Angle;FixedPointHeight" :: scenario_file.

(** A block whose Y row has fewer cells than its X row. *)
Definition xy_mismatch_file : list string :=
  [ line "2025-05-26T14:58:59;10.0;2.0;0.0;1.5";
    line "SCAN";
    line "X;;1.0;2.0";
    line "Y;;3.0" ].

(** A file that ends right after a block-start line. *)
Definition truncated_file : list string :=
  scenario_file ++ [ line "2025-05-26T14:59:00;10.0;2.0;0.0;1.5" ].

(** A block whose Y row is missing, followed at once by a line that has
    the form of a block start. *)
Definition swallowed_start_file : list string :=
  [ line "2025-05-26T14:58:59;10.0;2.0;0.0;1.5";
    line "SCAN";
    line "X;;1.0;2.0;3.0";
    line "2025-05-26T14:59:00;10.0;2.0;0.0;1.5" ].

(** A single block-start line with text in place of the height. *)
Definition bad_height_line : list string :=
  [ line "2025-05-26T14:58:59;abc;2.0;0.0;1.5" ].

(** A complete block with text in place of a Y cell. *)
Definition bad_cell_file : list string :=
  [ line "2025-05-26T14:58:59;10.0;2.0;0.0;1.5";
    line "SCAN";
    line "X;;1.0;2.0";
    line "Y;;3.0;oops" ].

(** Two blocks, of two points and of one point. *)
Definition ragged_file : list string :=
  scenario_file ++
  [ line "2025-05-26T14:59:00;10.0;2.0;0.0;1.5";
    line "SCAN";
    line "X;;5.0";
    line "Y;;6.0" ].

(** Two blocks, the first without any point. *)
Definition leading_empty_file : list string :=
  [ line "2025-05-26T14:58:59;10.0;2.0;0.0;1.5";
    line "SCAN";
    line "X;";
    line "Y;" ] ++
  [ line "2025-05-26T14:59:00;10.0;2.0;0.0;1.5";
    line "SCAN";
    line "X;;5.0";
    line "Y;;6.0" ].

(** A file with a header and nothing else. *)
Definition header_only_file : list string :=
  [ line "DateTime;Height;Gab;Angle;FixedPointHeight"; nl ].

(* ================================================================== *)
(** * Vocabulary of the specification *)

(** A character class of the timestamp layout: a decimal digit or one
    given character. *)
Inductive cls : Type := D | L (c : ascii).

Definition in_class (k : cls) (c : ascii) : Prop :=
  match k with D => Py.isdigit c = true | L a => c = a end.

(** [YYYY-MM-DDTHH:MM:SS], character by character. *)
Definition timestamp_shape : list cls :=
  [D; D; D; D; L "-"; D; D; L "-"; D; D; L "T";
   D; D; L ":"; D; D; L ":"; D; D]%char.

(** The text starts with a timestamp: its first nineteen characters have
    the layout, whatever follows them. *)
Definition timestamp_at_start (s : string) : Prop :=
  exists pre rest, s = pre +:+ rest /\
    Forall2 in_class timestamp_shape (list_ascii_of_string pre).

(** A block-start candidate, in the words of the specification: the line
    splits on [;] into exactly five fields, and the first one, trimmed,
    starts with a timestamp. *)
Definition block_start_candidate (line : string) : Prop :=
  exists f1 f2 f3 f4 f5,
    Py.split ";" line = [f1; f2; f3; f4; f5]
    /\ timestamp_at_start (Py.strip f1).

(** The raw lines of one block in the file: a candidate line [raw] with
    the given fields, a line that is not looked at, and the two rows. *)
Definition block_lines (fh : list string)
    (raw x_raw y_raw : string) (fields : list string) : Prop :=
  exists pre m rest,
    fh = pre ++ raw :: m :: x_raw :: y_raw :: rest
    /\ Py.split ";" (Py.strip raw) = fields
    /\ block_start_candidate (Py.strip raw).

(** The vocabulary of the aggregator. *)
Section AggregatorVocabulary.
Context {PF : PyFloat}.

(** [df[key][r]] *)
Definition cell (key : string) (r : nat) (df : Frame F) : option F :=
  Pd.getitem key df ≫= fun col => col !! r.

(** The cells of row [r] on one axis: the cells at that row of the
    columns whose label starts with the axis prefix, in column order. *)
Definition axis_cells (axis : string) (r : nat) (df : Frame F) : list F :=
  omap (fun c => c.2 !! r)
    (filter (fun c => Py.startswith axis c.1) (columns df)).

(** The values of row [r] on one axis: its cells without the missing
    ones. *)
Definition axis_values (axis : string) (r : nat) (df : Frame F) : list F :=
  present (axis_cells axis r df).

(** Sum over count. *)
Definition arithmetic_mean (vs : list F) : F :=
  fdiv (foldl fadd (of_nat 0) vs) (of_nat (length vs)).

(** The middle value in sorted order, or the mean of the two middle
    values. *)
Definition statistical_median (vs : list F) : F :=
  let s := merge_sort (fun a b => fle a b) vs in
  let n := length s in
  if Nat.odd n then default nan (s !! (n / 2))
  else fdiv (fadd (default nan (s !! (n / 2 - 1))) (default nan (s !! (n / 2))))
         (of_nat 2).

(** An aggregate over no value at all is the missing marker. *)
Definition aggregate (f : list F -> F) (vs : list F) : F :=
  match vs with [] => nan | _ => f vs end.

(** The labels of a CoordinateTable are [x_i] and [y_i]. *)
Definition coordinate_label (s : string) : Prop :=
  Py.startswith "x_" s = true \/ Py.startswith "y_" s = true.

Definition CoordinateTable (df : Frame F) : Prop :=
  Forall coordinate_label (Pd.names df).

End AggregatorVocabulary.

(** The table of the aggregation example and a table without X columns. *)
Definition example_table : Frame Decimal.num :=
  mkFrame 2 [ ("x_0", [Some 1%Q; Some 3%Q]); ("x_1", [Some 5%Q; Some 7%Q]) ].

Definition y_only_table : Frame Decimal.num :=
  mkFrame 2 [ ("y_0", [Some 3%Q; Some 4%Q]) ].

(** The vocabulary of the coordinate table. *)
Section CoordinateVocabulary.
Context {PF : PyFloat}.

(** The arrays that the blocks contribute, in the order in which lines
    49-51 store them: X then Y, block by block. *)
Definition coordinate_arrays (blocks : list ScanBlock) : list (list F) :=
  blocks ≫= fun b => [X b; Y b].

(** The labels [x_i], [y_i] for [n] blocks counted from [i]. *)
Definition coordinate_labels (i n : nat) : list string :=
  seq i n ≫= fun j => ["x_" +:+ pretty j; "y_" +:+ pretty j].

(** The arrays are ragged in a way that the table cannot take: some array
    differs in length from a non-empty array that comes before it. *)
Definition ragged (arrays : list (list F)) : Prop :=
  exists i j a b,
    i < j /\ arrays !! i = Some a /\ arrays !! j = Some b
    /\ a <> [] /\ length b <> length a.

(** An array as a column of [n] rows: itself, or [n] missing markers when
    it is empty. *)
Definition as_column (n : nat) (a : list F) : list F :=
  match a with [] => replicate n nan | _ => a end.

End CoordinateVocabulary.

(* ================================================================== *)
(** * [get_tab_title], the data of [create_plot] and the whole of [main] *)

Module PyStr.

(** [s.count(c)] for a one-character [c]. *)
Fixpoint count (c : ascii) (s : string) : nat :=
  match s with
  | EmptyString => 0
  | String a s' => (if Ascii.eqb a c then 1 else 0) + count c s'
  end.

(** [sep.join(fields)] for a one-character separator. *)
Fixpoint join (sep : ascii) (fields : list string) : string :=
  match fields with
  | [] => EmptyString
  | [f] => f
  | f :: fs => f +:+ String sep (join sep fs)
  end.

(** [s[-1]]: the last character; [None] is the [IndexError] on the empty
    string. *)
Fixpoint last_char (s : string) : option ascii :=
  match s with
  | EmptyString => None
  | String c EmptyString => Some c
  | String _ s' => last_char s'
  end.

(** ['0' * n] *)
Fixpoint zeros (n : nat) : string :=
  match n with O => EmptyString | S n' => String "0" (zeros n') end.

(** [s.zfill(width)]: zeros on the left up to [width] characters, after
    a leading sign if there is one. *)
Definition zfill (width : nat) (s : string) : string :=
  if width <=? String.length s then s
  else
    let fill := zeros (width - String.length s) in
    match s with
    | String "+" rest => String "+" (fill +:+ rest)
    | String "-" rest => String "-" (fill +:+ rest)
    | _ => fill +:+ s
    end.

End PyStr.

(** [PurePosixPath(s).stem] as Python 3.12 computes it, to run
    [get_tab_title] on sample names. *)
Module Pathlib.

(** [Path(s).name]: the last component that is neither empty nor [.]. *)
Definition name (path : string) : string :=
  default EmptyString
    (last (filter (fun p => p <> EmptyString /\ p <> ".") (Py.split "/" path))).

(** [s.rfind(".")], with [None] for -1. *)
Fixpoint rfind_dot (s : string) : option nat :=
  match s with
  | EmptyString => None
  | String c s' =>
      match rfind_dot s' with
      | Some i => Some (S i)
      | None => if Ascii.eqb c "." then Some 0 else None
      end
  end.

(** The name without its last suffix; a dot at either end starts no
    suffix. *)
Definition stem (path : string) : string :=
  let n := name path in
  match rfind_dot n with
  | Some i =>
      if (0 <? i) && (i <? String.length n - 1)
      then String.substring 0 i n else n
  | None => n
  end.

End Pathlib.

Section Presentation.
Context {PF : PyFloat}.

(** [Path(s).stem] of the standard library is a parameter. *)
Variable stem : string -> string.

(** The [n]-th token; [None] is the [IndexError] of [name[n]]. *)
Definition token (n : nat) (tokens : list string) : option string :=
  tokens !! n.

(** [get_tab_title(filename)] on the name of the upload.  The f-string
    evaluates [name[7][-1]] first and then [name[1]] to [name[5]]; every
    one of these raises [IndexError] when it fails, which is [None]. *)
Definition get_tab_title (filename : Upload) : option string :=
  let tokens := Py.split "_" (stem (name filename)) in
  t7 ← token 7 tokens; c ← PyStr.last_char t7;
  t1 ← token 1 tokens; t2 ← token 2 tokens; t3 ← token 3 tokens;
  t4 ← token 4 tokens; t5 ← token 5 tokens;
  Some ("Pico " +:+ String c EmptyString +:+ " - " +:+ t1 +:+ "/" +:+ t2
          +:+ "/" +:+ t3 +:+ " " +:+ t4 +:+ ":" +:+ PyStr.zfill 2 t5).

(** What [create_plot] reads from its argument (line 68): the series
    [df['mean_x']] and [df['mean_y']] that go to [ax.scatter]; a missing
    label raises [KeyError]. *)
Definition scatter_data (df : Frame F) : exn + (list F * list F) :=
  match Pd.getitem "mean_x" df, Pd.getitem "mean_y" df with
  | Some xs, Some ys => inr (xs, ys)
  | _, _ => inl KeyError
  end.

(** What lines 59 and 60 compute for an axis: the mean and the median of
    the cells of every row of the index on that axis. *)
Definition row_means (axis : string) (df : Frame F) : list F :=
  (fun r => nanmean (axis_cells axis r df)) <$> seq 0 (index df).

Definition row_medians (axis : string) (df : Frame F) : list F :=
  (fun r => nanmedian (axis_cells axis r df)) <$> seq 0 (index df).

(** How one upload ends: the error that the handler of line 165 reports
    for it, if any. *)
Variable show : Frame pyval -> Frame F -> exn + unit.

Definition outcome (uploaded_file : Upload) : option exn :=
  match load_data (getbuffer uploaded_file) with
  | inl e => Some e
  | inr (df_meta, df_coordinates) =>
      match show df_meta (summary_of df_coordinates) with
      | inl e => Some e
      | inr _ => None
      end
  end.

(** How [main] ends. *)
Inductive main_result : Type :=
| Raised_IndexError             (* out of line 122, not handled *)
| Reports (reports : list (option exn)).

(** [main] from line 115 on.  Without uploads nothing is done.  With
    uploads the titles of all tabs are computed first (line 122, outside
    any [try]), and only then the loop of line 124 runs. *)
Definition main (fs : gmap string (list string)) (uploaded_files : list Upload)
  : gmap string (list string) * main_result :=
  match uploaded_files with
  | [] => (fs, Reports [])
  | _ =>
      match mapM get_tab_title uploaded_files with
      | None => (fs, Raised_IndexError)
      | Some _ =>
          let '(fs', reports) := main_loop show fs uploaded_files in
          (fs', Reports reports)
      end
  end.

End Presentation.

(** Sample uploads. *)
Definition good_name : string := "scan_2025_05_26_14_5_sick_pico3.txt".

Definition short_name : string := "scan_2025_05_26.txt".

(* ================================================================== *)
(** * Properties *)

(** ** Strings and the timestamp pattern *)

Ltac step_pattern H :=
  repeat match type of H with
  | context [match ?s with EmptyString => _ | String _ _ => _ end] =>
      is_var s; destruct s as [|? s]; [discriminate|]
  | context [if Py.isdigit ?c then _ else _] =>
      destruct (Py.isdigit c) eqn:?; [|discriminate]
  | context [if Ascii.eqb ?c ?a then _ else _] =>
      destruct (Ascii.eqb_spec c a); [subst|discriminate]
  end.

Ltac open_shape :=
  repeat match goal with
  | H : Forall2 _ (_ :: _) (list_ascii_of_string ?p) |- _ =>
      destruct p; cbn in H; inversion H; subst; clear H
  | H : Forall2 _ [] (list_ascii_of_string ?p) |- _ =>
      destruct p; cbn in H; inversion H; clear H
  end.

(** The regular expression accepts exactly the texts that start with the
    nineteen-character layout. *)
Lemma looks_like_datetime_spec s :
  looks_like_datetime s = true <-> timestamp_at_start s.
Proof.
  split.
  - unfold looks_like_datetime, Re.match_, datetime_pattern.
    cbn [Re.run Re.times]. intros H. step_pattern H.
    eexists (String _ (String _ (String _ (String _ (String _ (String _
      (String _ (String _ (String _ (String _ (String _ (String _ (String _
      (String _ (String _ (String _ (String _ (String _ (String _
      EmptyString))))))))))))))))))), _.
    split; [reflexivity|]. cbn. repeat constructor; assumption.
  - intros (pre & rest & -> & H). unfold timestamp_shape in H. open_shape.
    cbn [in_class] in *. subst.
    unfold looks_like_datetime, Re.match_, datetime_pattern.
    cbv -[Py.isdigit].
    repeat match goal with
    | H : Py.isdigit _ = true |- _ => rewrite H; clear H; cbv -[Py.isdigit]
    end.
    reflexivity.
Qed.

(** The test of line 22 is the negation of the specification's notion. *)
Lemma skipped_spec line :
  skipped (parts_of line) = false <-> block_start_candidate line.
Proof.
  unfold skipped, block_start_candidate, parts_of.
  rewrite orb_false_iff, !negb_false_iff, Nat.eqb_eq, length_fmap.
  split.
  - intros [Hlen Hts].
    destruct (Py.split ";" line) as [|f1 [|f2 [|f3 [|f4 [|f5 [|]]]]]];
      try discriminate.
    exists f1, f2, f3, f4, f5. split; [done|].
    by apply looks_like_datetime_spec.
  - intros (f1 & f2 & f3 & f4 & f5 & -> & Hts). split; [done|].
    by apply looks_like_datetime_spec.
Qed.

Lemma skipped_true_spec line :
  skipped (parts_of line) = true <-> ~ block_start_candidate line.
Proof.
  rewrite <- skipped_spec. destruct (skipped (parts_of line)); split; congruence.
Qed.

(** ** The parsing loop *)

Section ParserProperties.
Context {PF : PyFloat}.

Lemma candidate_not_blank line :
  block_start_candidate line -> Py.truthy line = true.
Proof.
  intros (f1 & f2 & f3 & f4 & f5 & Hs & _). by destruct line.
Qed.

(** A blank line, or a line that is no candidate, is passed over. *)
Lemma parse_loop_skip raw fh blocks :
  ~ block_start_candidate (Py.strip raw) ->
  parse_loop (raw :: fh) blocks = parse_loop fh blocks.
Proof.
  intros Hn. cbn [parse_loop].
  destruct (Py.truthy (Py.strip raw)); cbn [negb]; [|done].
  apply skipped_true_spec in Hn. by rewrite Hn.
Qed.

(** A candidate takes the next three raw lines and the block is built
    from its five trimmed fields and the cells of the second and third of
    them. *)
Lemma parse_loop_start raw fh1 blocks f1 f2 f3 f4 f5 :
  Py.split ";" (Py.strip raw) = [f1; f2; f3; f4; f5] ->
  timestamp_at_start (Py.strip f1) ->
  parse_loop (raw :: fh1) blocks =
    match fh1 with
    | _ :: x_raw :: y_raw :: fh4 =>
        match make_block (Py.strip f1) (Py.strip f2) (Py.strip f3)
                (Py.strip f4) (Py.strip f5)
                (row_cells x_raw) (row_cells y_raw) with
        | Some b => parse_loop fh4 (blocks ++ [b])
        | None => (blocks, Some ValueError)
        end
    | _ => (blocks, Some StopIteration)
    end.
Proof.
  intros Hs Hts.
  assert (Hc : block_start_candidate (Py.strip raw)) by (by exists f1, f2, f3, f4, f5).
  cbn [parse_loop].
  rewrite (candidate_not_blank _ Hc). cbn [negb].
  apply skipped_spec in Hc. rewrite Hc.
  unfold parts_of. rewrite Hs. cbn [fmap list_fmap].
  by destruct fh1 as [|? [|? [|? ?]]].
Qed.

(** The cases of the loop as an induction principle. *)
Lemma parse_loop_cases
    (P : list string -> list ScanBlock -> list ScanBlock * option exn -> Prop) :
  (forall blocks, P [] blocks (blocks, None)) ->
  (forall raw fh blocks,
      ~ block_start_candidate (Py.strip raw) ->
      P fh blocks (parse_loop fh blocks) ->
      P (raw :: fh) blocks (parse_loop fh blocks)) ->
  (forall raw fh1 blocks,
      block_start_candidate (Py.strip raw) -> length fh1 < 3 ->
      P (raw :: fh1) blocks (blocks, Some StopIteration)) ->
  (forall raw m x_raw y_raw fh4 blocks f1 f2 f3 f4 f5,
      Py.split ";" (Py.strip raw) = [f1; f2; f3; f4; f5] ->
      timestamp_at_start (Py.strip f1) ->
      make_block (Py.strip f1) (Py.strip f2) (Py.strip f3) (Py.strip f4)
        (Py.strip f5) (row_cells x_raw) (row_cells y_raw) = None ->
      P (raw :: m :: x_raw :: y_raw :: fh4) blocks (blocks, Some ValueError)) ->
  (forall raw m x_raw y_raw fh4 blocks f1 f2 f3 f4 f5 b,
      Py.split ";" (Py.strip raw) = [f1; f2; f3; f4; f5] ->
      timestamp_at_start (Py.strip f1) ->
      make_block (Py.strip f1) (Py.strip f2) (Py.strip f3) (Py.strip f4)
        (Py.strip f5) (row_cells x_raw) (row_cells y_raw) = Some b ->
      P fh4 (blocks ++ [b]) (parse_loop fh4 (blocks ++ [b])) ->
      P (raw :: m :: x_raw :: y_raw :: fh4) blocks
        (parse_loop fh4 (blocks ++ [b]))) ->
  forall fh blocks, P fh blocks (parse_loop fh blocks).
Proof.
  intros Hnil Hskip Hstop Hbad Hok fh.
  induction fh as [fh IH] using (induction_ltof1 _ (@length string)).
  unfold ltof in IH. intros blocks.
  destruct fh as [|raw fh1]; [apply Hnil|].
  destruct (skipped (parts_of (Py.strip raw))) eqn:Hsk.
  - apply skipped_true_spec in Hsk.
    rewrite (parse_loop_skip _ _ _ Hsk). apply Hskip; [done|].
    apply IH. cbn. lia.
  - apply skipped_spec in Hsk.
    pose proof Hsk as (f1 & f2 & f3 & f4 & f5 & Hs & Hts).
    rewrite (parse_loop_start _ _ _ _ _ _ _ _ Hs Hts).
    destruct fh1 as [|m [|x_raw [|y_raw fh4]]];
      try (apply Hstop; [done | cbn; lia]).
    destruct (make_block _ _ _ _ _ _ _) as [b|] eqn:Hb.
    + eapply Hok; [done..|]. apply IH. cbn. lia.
    + by eapply Hbad.
Qed.

(** The loop only ever leaves with the exceptions of [next] and [float],
    and it only appends to [blocks]. *)
Lemma parse_loop_extends fh blocks :
  exists new, (parse_loop fh blocks).1 = blocks ++ new.
Proof.
  revert fh blocks.
  refine (parse_loop_cases
    (fun _ blocks res => exists new, res.1 = blocks ++ new) _ _ _ _ _).
  - intros blocks. exists []. by rewrite app_nil_r.
  - done.
  - intros ? ? blocks _ _. exists []. by rewrite app_nil_r.
  - intros ? ? ? ? ? blocks. intros. exists []. by rewrite app_nil_r.
  - intros ? ? ? ? ? blocks ? ? ? ? ? b _ _ _ [new ->].
    exists (b :: new). by rewrite <- app_assoc.
Qed.

(** A prefix of the file on which the loop ends normally is processed the
    same way whatever follows it. *)
Lemma parse_loop_app pre rest blocks blocks' :
  parse_loop pre blocks = (blocks', None) ->
  parse_loop (pre ++ rest) blocks = parse_loop rest blocks'.
Proof.
  revert pre blocks blocks'.
  refine (parse_loop_cases
    (fun pre blocks res => forall blocks', res = (blocks', None) ->
       parse_loop (pre ++ rest) blocks = parse_loop rest blocks') _ _ _ _ _).
  - intros blocks blocks' [= ->]. done.
  - intros raw fh blocks Hn IH blocks' Hr. cbn [app].
    rewrite parse_loop_skip by done. by apply IH.
  - intros; discriminate.
  - intros; discriminate.
  - intros raw m x_raw y_raw fh4 blocks f1 f2 f3 f4 f5 b Hs Hts Hb IH blocks' Hr.
    cbn [app]. rewrite (parse_loop_start _ _ _ _ _ _ _ _ Hs Hts), Hb.
    by apply IH.
Qed.

End ParserProperties.

(** ** Blocks *)

Section BlockProperties.
Context {PF : PyFloat}.

Lemma floats_length cells vs : floats cells = Some vs -> length vs = length cells.
Proof. intros H. symmetry. by eapply length_mapM. Qed.

Lemma floats_bad cells c : c ∈ cells -> float c = None -> floats cells = None.
Proof.
  intros Hin Hc. unfold floats. apply mapM_None, Exists_exists. eauto.
Qed.

(** The dictionary holds the first field as it is, the numbers read from
    the four other fields and the numbers read from the cells of the two
    rows. *)
Lemma make_block_Some ts h gab ang fph x_row y_row b :
  make_block ts h gab ang fph x_row y_row = Some b <->
  DateTime b = ts /\ float h = Some (Height b) /\ float gab = Some (Gab b)
  /\ float ang = Some (Angle b) /\ float fph = Some (FixedPointHeight b)
  /\ floats x_row = Some (X b) /\ floats y_row = Some (Y b).
Proof.
  unfold make_block. split.
  - intros H.
    destruct (float h), (float gab), (float ang), (float fph),
      (floats x_row), (floats y_row); simplify_eq/=. done.
  - destruct b. cbn. intros (-> & -> & -> & -> & -> & -> & ->). done.
Qed.

Lemma make_block_None ts h gab ang fph x_row y_row :
  make_block ts h gab ang fph x_row y_row = None <->
  float h = None \/ float gab = None \/ float ang = None \/ float fph = None
  \/ floats x_row = None \/ floats y_row = None.
Proof.
  unfold make_block.
  destruct (float h), (float gab), (float ang), (float fph),
    (floats x_row), (floats y_row); cbn; intuition congruence.
Qed.

Lemma row_cells_length raw :
  length (row_cells raw) = length (Py.split ";" (Py.strip raw)) - 2.
Proof. unfold row_cells. apply length_drop. Qed.

End BlockProperties.

(** ** The blocks that the loop emits *)

Section EmittedBlocks.
Context {PF : PyFloat}.

Lemma block_lines_cons fh raw0 raw x_raw y_raw fields :
  block_lines fh raw x_raw y_raw fields ->
  block_lines (raw0 :: fh) raw x_raw y_raw fields.
Proof.
  intros (pre & m & rest & -> & ? & ?). by exists (raw0 :: pre), m, rest.
Qed.

Lemma block_lines_app fh0 fh raw x_raw y_raw fields :
  block_lines fh raw x_raw y_raw fields ->
  block_lines (fh0 ++ fh) raw x_raw y_raw fields.
Proof. induction fh0; cbn; auto using block_lines_cons. Qed.

(** Every block that the loop adds comes from a candidate line of the
    file and the second and third line after it. *)
Lemma parse_loop_emitted fh blocks b :
  b ∈ (parse_loop fh blocks).1 ->
  b ∈ blocks \/
  exists raw x_raw y_raw f1 f2 f3 f4 f5,
    block_lines fh raw x_raw y_raw [f1; f2; f3; f4; f5]
    /\ make_block (Py.strip f1) (Py.strip f2) (Py.strip f3) (Py.strip f4)
         (Py.strip f5) (row_cells x_raw) (row_cells y_raw) = Some b.
Proof.
  revert fh blocks.
  refine (parse_loop_cases
    (fun fh blocks res => b ∈ res.1 -> b ∈ blocks \/
       exists raw x_raw y_raw f1 f2 f3 f4 f5,
         block_lines fh raw x_raw y_raw [f1; f2; f3; f4; f5]
         /\ make_block (Py.strip f1) (Py.strip f2) (Py.strip f3) (Py.strip f4)
              (Py.strip f5) (row_cells x_raw) (row_cells y_raw) = Some b)
    _ _ _ _ _); cbn [fst].
  - auto.
  - intros raw fh blocks _ IH Hin.
    destruct (IH Hin) as [?|(r & x & y & f1 & f2 & f3 & f4 & f5 & Hb & Hm)];
      [by left|right].
    exists r, x, y, f1, f2, f3, f4, f5. auto using block_lines_cons.
  - auto.
  - auto.
  - intros raw m x_raw y_raw fh4 blocks f1 f2 f3 f4 f5 b' Hs Hts Hb' IH Hin.
    destruct (IH Hin) as [Hold|(r & x & y & g1 & g2 & g3 & g4 & g5 & Hb & Hm)].
    + apply elem_of_app in Hold as [?|Hnew]; [by left|right].
      apply list_elem_of_singleton in Hnew as ->.
      exists raw, x_raw, y_raw, f1, f2, f3, f4, f5. split; [|done].
      exists [], m, fh4. split_and!; [done..|].
      by exists f1, f2, f3, f4, f5.
    + right. exists r, x, y, g1, g2, g3, g4, g5. split; [|done].
      by apply (block_lines_app [raw; m; x_raw; y_raw]).
Qed.

End EmittedBlocks.

(** ** The tables of a file *)

Section LoadData.
Context {PF : PyFloat}.

Lemma load_data_raise fh blocks e :
  parse_loop fh [] = (blocks, Some e) -> load_data fh = inl e.
Proof. unfold load_data. by intros ->. Qed.

Lemma load_data_tables fh blocks :
  parse_loop fh [] = (blocks, None) -> load_data fh = tables blocks.
Proof. unfold load_data. by intros ->. Qed.

(** Without blocks the frame has no column to drop. *)
Lemma tables_nil : tables [] = inl KeyError.
Proof. reflexivity. Qed.

(** A file without candidate lines yields no block. *)
Lemma parse_loop_no_candidate fh blocks :
  Forall (fun raw => ~ block_start_candidate (Py.strip raw)) fh ->
  parse_loop fh blocks = (blocks, None).
Proof.
  induction 1 as [|raw fh Hraw _ IH]; [done|].
  by rewrite parse_loop_skip.
Qed.

End LoadData.

(** ** Claims about the parser *)

(** C3.  The test that the loop applies to a line is the specification's
    notion of a block-start candidate (five [;]-separated fields, the
    first of which, trimmed, starts with a timestamp); a line that is no
    candidate, such as a five-field header, is passed over and the rest of
    the file is parsed as if it were not there; a candidate takes the next
    three lines and the block is built from them. *)
Theorem block_start_rule {PF : PyFloat} (raw : string) (fh : list string)
    (blocks : list ScanBlock) :
  (skipped (parts_of (Py.strip raw)) = false
     <-> block_start_candidate (Py.strip raw))
  /\ (~ block_start_candidate (Py.strip raw) ->
        parse_loop (raw :: fh) blocks = parse_loop fh blocks)
  /\ (block_start_candidate (Py.strip raw) ->
        exists f1 f2 f3 f4 f5,
          Py.split ";" (Py.strip raw) = [f1; f2; f3; f4; f5]
          /\ parse_loop (raw :: fh) blocks =
               match fh with
               | _ :: x_raw :: y_raw :: fh4 =>
                   match make_block (Py.strip f1) (Py.strip f2) (Py.strip f3)
                           (Py.strip f4) (Py.strip f5)
                           (row_cells x_raw) (row_cells y_raw) with
                   | Some b => parse_loop fh4 (blocks ++ [b])
                   | None => (blocks, Some ValueError)
                   end
               | _ => (blocks, Some StopIteration)
               end).
Proof.
  split_and!.
  - apply skipped_spec.
  - apply parse_loop_skip.
  - intros (f1 & f2 & f3 & f4 & f5 & Hs & Hts).
    exists f1, f2, f3, f4, f5. split; [done|].
    by apply parse_loop_start.
Qed.

(** A header line in front of the scenario changes nothing. *)
Example header_is_skipped :
  load_data (PF := Decimal.floats) header_file
  = load_data (PF := Decimal.floats) scenario_file.
Proof. reflexivity. Qed.

(** C1, as the code has it.  A block that the loop emits has the first
    field of its candidate line as [DateTime] and the numbers read from
    the four other fields as its scalars; [X] has one number per field of
    the X row after the first two and [Y] one per field of the Y row after
    the first two.  Nothing relates the two lengths. *)
Theorem emitted_block_fields {PF : PyFloat} (fh : list string)
    (blocks : list ScanBlock) (o : option exn) (b : ScanBlock) :
  parse_loop fh [] = (blocks, o) -> b ∈ blocks ->
  exists raw x_raw y_raw f1 f2 f3 f4 f5,
    block_lines fh raw x_raw y_raw [f1; f2; f3; f4; f5]
    /\ DateTime b = Py.strip f1
    /\ float (Py.strip f2) = Some (Height b)
    /\ float (Py.strip f3) = Some (Gab b)
    /\ float (Py.strip f4) = Some (Angle b)
    /\ float (Py.strip f5) = Some (FixedPointHeight b)
    /\ floats (row_cells x_raw) = Some (X b)
    /\ floats (row_cells y_raw) = Some (Y b)
    /\ length (X b) = length (Py.split ";" (Py.strip x_raw)) - 2
    /\ length (Y b) = length (Py.split ";" (Py.strip y_raw)) - 2.
Proof.
  intros Hp Hin.
  destruct (parse_loop_emitted fh [] b) as [Hnil|H].
  { by rewrite Hp. }
  { by apply elem_of_nil in Hnil. }
  destruct H as (raw & x_raw & y_raw & f1 & f2 & f3 & f4 & f5 & Hl & Hm).
  apply make_block_Some in Hm as (? & ? & ? & ? & ? & Hx & Hy).
  exists raw, x_raw, y_raw, f1, f2, f3, f4, f5. split_and!; try done.
  - by rewrite (floats_length _ _ Hx), row_cells_length.
  - by rewrite (floats_length _ _ Hy), row_cells_length.
Qed.

Lemma emitted_block_fields_witness :
  exists b,
    parse_loop (PF := Decimal.floats) xy_mismatch_file [] = ([b], None)
    /\ exists raw x_raw y_raw f1 f2 f3 f4 f5,
         block_lines xy_mismatch_file raw x_raw y_raw [f1; f2; f3; f4; f5]
         /\ DateTime b = Py.strip f1
         /\ float (Py.strip f2) = Some (Height b)
         /\ float (Py.strip f3) = Some (Gab b)
         /\ float (Py.strip f4) = Some (Angle b)
         /\ float (Py.strip f5) = Some (FixedPointHeight b)
         /\ floats (row_cells x_raw) = Some (X b)
         /\ floats (row_cells y_raw) = Some (Y b)
         /\ length (X b) = length (Py.split ";" (Py.strip x_raw)) - 2
         /\ length (Y b) = length (Py.split ";" (Py.strip y_raw)) - 2.
Proof.
  eexists. split; [reflexivity|].
  eapply (emitted_block_fields (PF := Decimal.floats) xy_mismatch_file);
    [reflexivity | apply list_elem_of_here].
Defined.

(** The block of [xy_mismatch_file] is emitted with two X values and one
    Y value: equal lengths are not a property of emitted blocks. *)
Lemma emitted_block_unequal_lengths :
  exists b,
    parse_loop (PF := Decimal.floats) xy_mismatch_file [] = ([b], None)
    /\ length (X b) = 2 /\ length (Y b) = 1
    /\ length (X b) <> length (Y b).
Proof.
  eexists. split; [reflexivity|]. cbn. split_and!; [done..|lia].
Qed.

(** C2.  When the loop reaches a candidate line that fewer than three
    lines follow, it leaves with the exception of [next] at the end of the
    file; [blocks] holds the blocks completed before that line and nothing
    else, and [load_data] raises the same exception. *)
Theorem truncated_block_raises {PF : PyFloat} (pre : list string)
    (raw : string) (tail : list string) (blocks : list ScanBlock) :
  parse_loop pre [] = (blocks, None) ->
  block_start_candidate (Py.strip raw) ->
  length tail < 3 ->
  parse_loop (pre ++ raw :: tail) [] = (blocks, Some StopIteration)
  /\ load_data (pre ++ raw :: tail) = inl StopIteration.
Proof.
  intros Hpre Hc Hlen.
  assert (Hp : parse_loop (pre ++ raw :: tail) [] = (blocks, Some StopIteration)).
  { rewrite (parse_loop_app _ _ _ _ Hpre).
    destruct Hc as (f1 & f2 & f3 & f4 & f5 & Hs & Hts).
    rewrite (parse_loop_start _ _ _ _ _ _ _ _ Hs Hts).
    destruct tail as [|? [|? [|? ?]]]; cbn in Hlen; try done. lia. }
  split; [done|]. by eapply load_data_raise.
Qed.

Lemma truncated_block_raises_witness :
  exists b,
    parse_loop (PF := Decimal.floats) scenario_file [] = ([b], None)
    /\ parse_loop (PF := Decimal.floats) truncated_file []
       = ([b], Some StopIteration)
    /\ load_data (PF := Decimal.floats) truncated_file = inl StopIteration.
Proof.
  eexists. split; [reflexivity|].
  apply (truncated_block_raises (PF := Decimal.floats) scenario_file
           (line "2025-05-26T14:59:00;10.0;2.0;0.0;1.5") []).
  - reflexivity.
  - apply skipped_spec. reflexivity.
  - cbn. lia.
Defined.

(** A line that has the form of a block start but is taken by [next] as a
    row of the block before it is never looked at as a block start: here
    it is read as the Y row, and the file loads. *)
Example swallowed_start_is_a_row :
  exists df_meta,
    load_data (PF := Decimal.floats) swallowed_start_file
    = inr (df_meta,
           mkFrame 3 [ ("x_0", [Some 1%Q; Some 2%Q; Some 3%Q]);
                       ("y_0", [Some 2%Q; Some 0%Q; Some (3 # 2)%Q]) ]).
Proof. eexists. reflexivity. Qed.

(** C4, as the code has it.  When the loop reaches a candidate line and
    one of its fields two to five, or a cell of the second or third line
    after it, is no number, [load_data] raises and returns no table.  The
    three lines are taken before any number is read: the exception is the
    [ValueError] of [float] when they exist, and the [StopIteration] of
    [next] when the file ends before them. *)
Theorem bad_number_aborts {PF : PyFloat} (pre : list string) (raw : string)
    (tail : list string) (blocks : list ScanBlock) (f1 f2 f3 f4 f5 : string) :
  parse_loop pre [] = (blocks, None) ->
  Py.split ";" (Py.strip raw) = [f1; f2; f3; f4; f5] ->
  timestamp_at_start (Py.strip f1) ->
  (float (Py.strip f2) = None \/ float (Py.strip f3) = None
   \/ float (Py.strip f4) = None \/ float (Py.strip f5) = None
   \/ (exists x_raw c,
         tail !! 1 = Some x_raw /\ c ∈ row_cells x_raw /\ float c = None)
   \/ (exists y_raw c,
         tail !! 2 = Some y_raw /\ c ∈ row_cells y_raw /\ float c = None)) ->
  load_data (pre ++ raw :: tail)
  = inl (if length tail <? 3 then StopIteration else ValueError).
Proof.
  intros Hpre Hs Hts Hbad.
  apply (load_data_raise _ blocks).
  rewrite (parse_loop_app _ _ _ _ Hpre),
    (parse_loop_start _ _ _ _ _ _ _ _ Hs Hts).
  destruct tail as [|m [|x_raw [|y_raw fh4]]]; try done.
  cbn [length Nat.ltb Nat.leb].
  assert (Hm : make_block (Py.strip f1) (Py.strip f2) (Py.strip f3)
                 (Py.strip f4) (Py.strip f5)
                 (row_cells x_raw) (row_cells y_raw) = None).
  { apply make_block_None.
    destruct Hbad as [?|[?|[?|[?|[Hx|Hy]]]]]; auto.
    - destruct Hx as (x & c & [= <-] & Hin & Hc).
      do 4 right. left. by eapply floats_bad.
    - destruct Hy as (y & c & [= <-] & Hin & Hc).
      do 5 right. by eapply floats_bad. }
  by rewrite Hm.
Qed.

Lemma bad_number_aborts_witness :
  load_data (PF := Decimal.floats) bad_cell_file = inl ValueError.
Proof.
  eapply (bad_number_aborts (PF := Decimal.floats) []
            (line "2025-05-26T14:58:59;10.0;2.0;0.0;1.5")
            [line "SCAN"; line "X;;1.0;2.0"; line "Y;;3.0;oops"] []).
  - reflexivity.
  - reflexivity.
  - apply looks_like_datetime_spec. reflexivity.
  - do 5 right. exists (line "Y;;3.0;oops"), "oops".
    split_and!; [reflexivity | | reflexivity].
    apply list_elem_of_further, list_elem_of_here.
Defined.

(** On [bad_height_line] the second field is no number, the line is a
    recognised block start, and the exception is the one of the truncated
    block, not the one of a bad number. *)
Lemma bad_number_in_truncated_block :
  block_start_candidate (Py.strip (line "2025-05-26T14:58:59;abc;2.0;0.0;1.5"))
  /\ @float Decimal.floats "abc" = None
  /\ load_data (PF := Decimal.floats) bad_height_line = inl StopIteration
  /\ load_data (PF := Decimal.floats) bad_height_line <> inl ValueError.
Proof.
  split_and!; [apply skipped_spec; reflexivity | reflexivity ..| discriminate].
Qed.

(** C10.  A file without any candidate line yields no block, and
    [load_data] then raises [KeyError]: the frame made from the empty list
    has no column [X] or [Y] to drop.  No pair of empty tables is
    returned. *)
Theorem no_candidate_raises {PF : PyFloat} (fh : list string) :
  Forall (fun raw => ~ block_start_candidate (Py.strip raw)) fh ->
  parse_loop fh [] = ([], None) /\ load_data fh = inl KeyError.
Proof.
  intros H. pose proof (parse_loop_no_candidate fh [] H) as Hp.
  split; [done|]. rewrite (load_data_tables _ _ Hp). apply tables_nil.
Qed.

Lemma no_candidate_raises_witness :
  load_data (PF := Decimal.floats) header_only_file = inl KeyError
  /\ load_data (PF := Decimal.floats) [] = inl KeyError.
Proof.
  split.
  - apply (no_candidate_raises (PF := Decimal.floats) header_only_file).
    repeat constructor; apply skipped_true_spec; reflexivity.
  - apply (no_candidate_raises (PF := Decimal.floats) []). constructor.
Defined.

(** ** Frames *)

Section FrameProperties.
Context {A : Type}.
Implicit Types (df : Frame A) (key : string) (value : list A).

Lemma frame_eq (a b : Frame A) :
  index a = index b -> columns a = columns b -> a = b.
Proof. destruct a, b. cbn. by intros -> ->. Qed.

(** A new label goes to the end. *)
Lemma columns_set_column_fresh key value df :
  key ∉ Pd.names df ->
  columns (Pd.set_column key value df) = columns df ++ [(key, value)].
Proof. intros H. cbn. by rewrite bool_decide_eq_false_2. Qed.

Lemma names_set_column_fresh key value df :
  key ∉ Pd.names df ->
  Pd.names (Pd.set_column key value df) = Pd.names df ++ [key].
Proof.
  intros H. unfold Pd.names at 1.
  rewrite columns_set_column_fresh by done. by rewrite fmap_app.
Qed.

(** Storing under [key] leaves alone every selection of columns by a
    property of the label that [key] does not have. *)
Lemma filter_set_column (P : string -> Prop) `{!forall s, Decision (P s)}
    key value df :
  ~ P key ->
  filter (fun c => P c.1) (columns (Pd.set_column key value df))
  = filter (fun c => P c.1) (columns df).
Proof.
  intros Hk. cbn. case_bool_decide as Hin.
  - clear Hin. induction (columns df) as [|c l IH]; [done|].
    cbn [fmap list_fmap]. rewrite !filter_cons, IH.
    case_bool_decide as Hc; cbn [fst].
    + rewrite decide_False by done. rewrite decide_False; [done|].
      by rewrite Hc.
    + done.
  - rewrite filter_app, filter_cons_False, filter_nil, app_nil_r; done.
Qed.

Lemma getitem_set_column_ne key key' value df :
  key' <> key ->
  Pd.getitem key' (Pd.set_column key value df) = Pd.getitem key' df.
Proof.
  intros Hne. unfold Pd.getitem.
  pose proof (filter_set_column (fun s => s = key') key value df) as H.
  cbn beta in H. rewrite H; [done|]. by intros ->.
Qed.

Lemma getitem_set_column_eq key value df :
  Pd.getitem key (Pd.set_column key value df) = Some value.
Proof.
  unfold Pd.getitem. cbn. case_bool_decide as Hin.
  - unfold Pd.names in Hin. induction (columns df) as [|c l IH].
    + by apply elem_of_nil in Hin.
    + cbn [fmap list_fmap]. rewrite filter_cons.
      case_bool_decide as Hc; cbn [fst].
      * by rewrite decide_True.
      * rewrite decide_False by done. apply IH.
        apply elem_of_cons in Hin as [Heq|?]; [|done]. by destruct Hc.
  - rewrite filter_app, filter_cons_True, filter_nil by done.
    unfold Pd.names in Hin.
    assert (Hnil : filter (fun c : string * list A => c.1 = key) (columns df) = []).
    { induction (columns df) as [|c l IH]; [done|].
      apply not_elem_of_cons in Hin as [Hc Hl].
      rewrite filter_cons_False by (cbn in *; congruence). by apply IH. }
    by rewrite Hnil.
Qed.

(** [df[df.columns[mask]]] keeps the columns whose label passes the mask. *)
Lemma columns_select (P : string -> Prop) `{!forall s, Decision (P s)} df :
  columns (Pd.select (filter P (Pd.names df)) df)
  = filter (fun c => P c.1) (columns df).
Proof.
  cbn. unfold Pd.names.
  assert (Hall : forall c, c ∈ columns df -> c.1 ∈ (columns df).*1).
  { intros c Hc. apply list_elem_of_fmap. eauto. }
  revert Hall. generalize ((columns df).*1) as ns.
  induction (columns df) as [|c l IH]; intros ns Hall; [done|].
  rewrite !filter_cons, IH by (intros; apply Hall; by right).
  assert (Hc : c.1 ∈ ns) by (apply Hall; by left).
  destruct (decide (P c.1)) as [Hp|Hp].
  - rewrite decide_True; [done|]. by apply list_elem_of_filter.
  - rewrite decide_False; [done|]. rewrite list_elem_of_filter. tauto.
Qed.

Lemma row_select (P : string -> Prop) `{!forall s, Decision (P s)} r df :
  Pd.row r (Pd.select (filter P (Pd.names df)) df)
  = omap (fun c => c.2 !! r) (filter (fun c => P c.1) (columns df)).
Proof. unfold Pd.row. by rewrite columns_select. Qed.

End FrameProperties.

(** ** The aggregator *)

Section AggregatorProperties.
Context {PF : PyFloat}.
Implicit Types (df : Frame F) (axis : string).

Lemma nanmean_aggregate vs :
  nanmean vs = aggregate arithmetic_mean (present vs).
Proof. unfold nanmean, aggregate. by destruct (present vs). Qed.

Lemma nanmedian_aggregate vs :
  nanmedian vs = aggregate statistical_median (present vs).
Proof.
  unfold nanmedian, aggregate, statistical_median.
  destruct (present vs) as [|v xs] eqn:Hp; [done|].
  set (s := merge_sort _ _).
  assert (Hlen : length s = S (length xs)).
  { unfold s. by rewrite merge_sort_Permutation. }
  rewrite Hlen. done.
Qed.

Lemma mean_label_ne axis : "mean_" +:+ axis <> "median_" +:+ axis.
Proof. intros H. vm_compute in H. discriminate. Qed.

Lemma startswith_mean axis :
  axis = "x" \/ axis = "y" ->
  Py.startswith axis ("mean_" +:+ axis) = false
  /\ Py.startswith axis ("median_" +:+ axis) = false.
Proof. intros [-> | ->]; split; reflexivity. Qed.

(** What one round stores, and what it leaves alone. *)
Lemma summarise_step_mean axis df :
  axis = "x" \/ axis = "y" ->
  Pd.getitem ("mean_" +:+ axis) (summarise_step axis df)
  = Some ((fun r => nanmean (axis_cells axis r df)) <$> seq 0 (index df)).
Proof.
  intros Hax. unfold summarise_step.
  rewrite getitem_set_column_ne by apply mean_label_ne.
  rewrite getitem_set_column_eq. unfold mean_axis1. cbn [Pd.select index].
  f_equal. apply list_fmap_ext. intros _ r _. f_equal. unfold axis_cells.
  exact (row_select (fun s => Py.startswith axis s) r df).
Qed.

Lemma summarise_step_median axis df :
  axis = "x" \/ axis = "y" ->
  Pd.getitem ("median_" +:+ axis) (summarise_step axis df)
  = Some ((fun r => nanmedian (axis_cells axis r df)) <$> seq 0 (index df)).
Proof.
  intros Hax. unfold summarise_step.
  rewrite getitem_set_column_eq. unfold median_axis1. cbn [Pd.select index].
  f_equal. apply list_fmap_ext. intros _ r _. f_equal. unfold axis_cells.
  unfold Pd.row. cbn [columns Pd.select].
  pose proof (filter_set_column
    (fun s => s ∈ filter (fun c => Py.startswith axis c) (Pd.names df))
    ("mean_" +:+ axis)
    (mean_axis1 (Pd.select
       (filter (fun c => Py.startswith axis c) (Pd.names df)) df)) df) as H.
  cbn beta in H. rewrite H.
  - exact (row_select (fun s => Py.startswith axis s) r df).
  - rewrite list_elem_of_filter. intros [Hs _].
    destruct (startswith_mean axis Hax) as [Hm _]. by rewrite Hm in Hs.
Qed.

Lemma summarise_step_other axis key df :
  key <> "mean_" +:+ axis -> key <> "median_" +:+ axis ->
  Pd.getitem key (summarise_step axis df) = Pd.getitem key df.
Proof.
  intros H1 H2. unfold summarise_step.
  by rewrite !getitem_set_column_ne.
Qed.

Lemma summarise_step_filter (P : string -> Prop) `{!forall s, Decision (P s)}
    axis df :
  ~ P ("mean_" +:+ axis) -> ~ P ("median_" +:+ axis) ->
  filter (fun c => P c.1) (columns (summarise_step axis df))
  = filter (fun c => P c.1) (columns df).
Proof.
  intros H1 H2. unfold summarise_step.
  by rewrite !filter_set_column.
Qed.

Lemma index_summarise_step axis df : index (summarise_step axis df) = index df.
Proof. reflexivity. Qed.

(** On a frame that has neither label, one round appends two columns. *)
Lemma summarise_step_fresh axis df :
  ("mean_" +:+ axis) ∉ Pd.names df -> ("median_" +:+ axis) ∉ Pd.names df ->
  exists mean median,
    columns (summarise_step axis df)
    = columns df ++ [("mean_" +:+ axis, mean); ("median_" +:+ axis, median)].
Proof.
  intros H1 H2. unfold summarise_step. eexists _, _.
  rewrite columns_set_column_fresh.
  - rewrite columns_set_column_fresh by done. by rewrite <- app_assoc.
  - rewrite names_set_column_fresh by done.
    apply not_elem_of_app. split; [done|].
    apply not_elem_of_cons. split; [|apply not_elem_of_nil].
    intros H. symmetry in H. by apply mean_label_ne in H.
Qed.

(** The object that [summarise_metrics] returns is new and holds
    [summary_of] the argument; no other object changes. *)
Lemma summarise_metrics_spec (h : gmap loc (Frame F)) (l : loc) df :
  h !! l = Some df ->
  summarise_metrics h l
  = Some (<[fresh (dom h) := summary_of df]> h, fresh (dom h)).
Proof.
  intros Hl. unfold summarise_metrics. rewrite Hl. cbn.
  by rewrite !alter_insert_eq.
Qed.

Lemma fresh_loc_unused (h : gmap loc (Frame F)) : h !! fresh (dom h) = None.
Proof. apply not_elem_of_dom, is_fresh. Qed.

(** The four cells of a row of the summary. *)
Lemma summary_of_cells df r :
  r < index df ->
  cell "mean_x" r (summary_of df)
    = Some (aggregate arithmetic_mean (axis_values "x" r df))
  /\ cell "median_x" r (summary_of df)
    = Some (aggregate statistical_median (axis_values "x" r df))
  /\ cell "mean_y" r (summary_of df)
    = Some (aggregate arithmetic_mean (axis_values "y" r df))
  /\ cell "median_y" r (summary_of df)
    = Some (aggregate statistical_median (axis_values "y" r df)).
Proof.
  intros Hr. unfold summary_of, cell.
  assert (Hseq : forall (f : nat -> F), (f <$> seq 0 (index df)) !! r = Some (f r)).
  { intros f. rewrite list_lookup_fmap, lookup_seq_lt by done. done. }
  assert (Hy : forall r', axis_cells "y" r' (summarise_step "x" df)
                          = axis_cells "y" r' df).
  { intros r'. unfold axis_cells. f_equal.
    refine (summarise_step_filter (fun s => Py.startswith "y" s) "x" df _ _);
      by vm_compute. }
  split_and!.
  - rewrite (summarise_step_other "y") by done.
    change "mean_x" with ("mean_" +:+ "x").
    rewrite summarise_step_mean by auto. cbn [mbind option_bind].
    by rewrite Hseq, nanmean_aggregate.
  - rewrite (summarise_step_other "y") by done.
    change "median_x" with ("median_" +:+ "x").
    rewrite summarise_step_median by auto. cbn [mbind option_bind].
    by rewrite Hseq, nanmedian_aggregate.
  - change "mean_y" with ("mean_" +:+ "y").
    rewrite summarise_step_mean by auto. cbn [mbind option_bind].
    rewrite index_summarise_step, Hseq, Hy. by rewrite nanmean_aggregate.
  - change "median_y" with ("median_" +:+ "y").
    rewrite summarise_step_median by auto. cbn [mbind option_bind].
    rewrite index_summarise_step, Hseq, Hy. by rewrite nanmedian_aggregate.
Qed.

(** A coordinate label is none of the four summary labels. *)
Lemma coordinate_label_not_summary s :
  coordinate_label s ->
  s <> "mean_x" /\ s <> "median_x" /\ s <> "mean_y" /\ s <> "median_y".
Proof.
  intros [H|H]; split_and!; intros ->; discriminate H.
Qed.

End AggregatorProperties.

(** ** Claims about the aggregator *)

(** C7.  On a CoordinateTable, [summarise_metrics] returns an object that
    did not exist before; the argument and every other object are as they
    were; the returned table has the index of the argument and its columns
    are those of the argument, unchanged and in order, followed by
    [mean_x], [median_x], [mean_y], [median_y]. *)
Theorem summarise_metrics_frame {PF : PyFloat} (h : gmap loc (Frame F))
    (l : loc) (df : Frame F) :
  h !! l = Some df ->
  CoordinateTable df ->
  exists h' l' mean_x median_x mean_y median_y,
    summarise_metrics h l = Some (h', l')
    /\ h !! l' = None
    /\ l' <> l
    /\ h' !! l = Some df
    /\ (forall k, k <> l' -> h' !! k = h !! k)
    /\ h' !! l' =
         Some (mkFrame (index df)
                 (columns df ++ [ ("mean_x", mean_x); ("median_x", median_x);
                                  ("mean_y", mean_y); ("median_y", median_y) ])).
Proof.
  intros Hl Hct.
  assert (Hno : forall s, s ∈ Pd.names df ->
            s <> "mean_x" /\ s <> "median_x" /\ s <> "mean_y" /\ s <> "median_y").
  { intros s Hs. apply coordinate_label_not_summary.
    unfold CoordinateTable in Hct. rewrite Forall_forall in Hct. auto. }
  destruct (summarise_step_fresh "x" df) as (mx & dx & Hx).
  { intros Hin. by destruct (Hno _ Hin) as (? & _). }
  { intros Hin. by destruct (Hno _ Hin) as (_ & ? & _). }
  assert (Hnames : Pd.names (summarise_step "x" df)
                   = Pd.names df ++ ["mean_x"; "median_x"]).
  { unfold Pd.names. by rewrite Hx, fmap_app. }
  destruct (summarise_step_fresh "y" (summarise_step "x" df)) as (my & dy & Hy).
  { rewrite Hnames. intros [Hin|Hin]%elem_of_app.
    - by destruct (Hno _ Hin) as (_ & _ & ? & _).
    - apply list_elem_of_In in Hin. cbn in Hin. intuition discriminate. }
  { rewrite Hnames. intros [Hin|Hin]%elem_of_app.
    - by destruct (Hno _ Hin) as (_ & _ & _ & ?).
    - apply list_elem_of_In in Hin. cbn in Hin. intuition discriminate. }
  pose proof (fresh_loc_unused h) as Hfresh.
  exists (<[fresh (dom h) := summary_of df]> h), (fresh (dom h)), mx, dx, my, dy.
  split_and!.
  - by apply summarise_metrics_spec.
  - done.
  - intros Heq. rewrite Heq in Hfresh. congruence.
  - rewrite lookup_insert_ne; [done|]. intros Heq. rewrite Heq in Hfresh.
    congruence.
  - intros k Hk. by rewrite lookup_insert_ne.
  - rewrite lookup_insert_eq. f_equal. unfold summary_of.
    apply frame_eq; [reflexivity|].
    cbn [columns]. by rewrite Hy, Hx, <- app_assoc.
Qed.

Lemma summarise_metrics_frame_witness :
  exists h' l' mean_x median_x mean_y median_y,
    summarise_metrics (PF := Decimal.floats) {[ 1%positive := example_table ]}
      1%positive = Some (h', l')
    /\ ({[ 1%positive := example_table ]} : gmap loc (Frame Decimal.num)) !! l'
       = None
    /\ l' <> 1%positive
    /\ h' !! 1%positive = Some example_table
    /\ (forall k, k <> l' ->
          h' !! k
          = ({[ 1%positive := example_table ]} : gmap loc (Frame Decimal.num))
              !! k)
    /\ h' !! l' =
         Some (mkFrame 2
                 (columns example_table
                    ++ [ ("mean_x", mean_x); ("median_x", median_x);
                         ("mean_y", mean_y); ("median_y", median_y) ])).
Proof.
  apply (summarise_metrics_frame (PF := Decimal.floats)
           {[ 1%positive := example_table ]} 1%positive example_table).
  - apply lookup_singleton_eq.
  - repeat constructor.
Defined.

(** C8.  In the table that [summarise_metrics] returns, [mean_x] at a row
    of the index is the arithmetic mean of the values that the columns
    starting with [x] have at that row, and [median_x] their median; the
    same holds for [y].  Cells that are missing do not count as values,
    and an aggregate over no value is missing. *)
Theorem summary_statistics {PF : PyFloat} (h : gmap loc (Frame F))
    (l : loc) (df : Frame F) :
  h !! l = Some df ->
  exists h' l' out,
    summarise_metrics h l = Some (h', l')
    /\ h' !! l' = Some out
    /\ index out = index df
    /\ forall r, r < index df ->
         cell "mean_x" r out
           = Some (aggregate arithmetic_mean (axis_values "x" r df))
         /\ cell "median_x" r out
           = Some (aggregate statistical_median (axis_values "x" r df))
         /\ cell "mean_y" r out
           = Some (aggregate arithmetic_mean (axis_values "y" r df))
         /\ cell "median_y" r out
           = Some (aggregate statistical_median (axis_values "y" r df)).
Proof.
  intros Hl.
  exists (<[fresh (dom h) := summary_of df]> h), (fresh (dom h)), (summary_of df).
  split_and!.
  - by apply summarise_metrics_spec.
  - apply lookup_insert_eq.
  - reflexivity.
  - apply summary_of_cells.
Qed.

(** The example of the specification: columns [x_0 = [1, 3]] and
    [x_1 = [5, 7]] give mean and median 3 at row 0 and 5 at row 1. *)
Lemma summary_statistics_witness :
  exists h' l' out,
    summarise_metrics (PF := Decimal.floats) {[ 1%positive := example_table ]}
      1%positive = Some (h', l')
    /\ h' !! l' = Some out
    /\ cell (PF := Decimal.floats) "mean_x" 0 out = Some (Some 3%Q)
    /\ cell (PF := Decimal.floats) "median_x" 0 out = Some (Some 3%Q)
    /\ cell (PF := Decimal.floats) "mean_x" 1 out = Some (Some 5%Q)
    /\ cell (PF := Decimal.floats) "median_x" 1 out = Some (Some 5%Q).
Proof.
  destruct (summary_statistics (PF := Decimal.floats)
              {[ 1%positive := example_table ]} 1%positive example_table)
    as (h' & l' & out & Hs & Hout & _ & Hcells).
  { apply lookup_singleton_eq. }
  exists h', l', out.
  destruct (Hcells 0) as (Hm0 & Hd0 & _); [cbn; lia|].
  destruct (Hcells 1) as (Hm1 & Hd1 & _); [cbn; lia|].
  split_and!; [done | done | | | |].
  - rewrite Hm0. reflexivity.
  - rewrite Hd0. reflexivity.
  - rewrite Hm1. reflexivity.
  - rewrite Hd1. reflexivity.
Defined.

Section EmptyAxis.
Context {PF : PyFloat}.

Lemma axis_cells_step_x (r : nat) (df : Frame F) :
  axis_cells "y" r (summarise_step "x" df) = axis_cells "y" r df.
Proof.
  unfold axis_cells. f_equal.
  refine (summarise_step_filter (fun s => Py.startswith "y" s) "x" df _ _);
    by vm_compute.
Qed.

(** The summary columns as wholes. *)
Lemma summary_of_columns (df : Frame F) (axis : string) :
  axis = "x" \/ axis = "y" ->
  Pd.getitem ("mean_" +:+ axis) (summary_of df)
    = Some ((fun r => nanmean (axis_cells axis r df)) <$> seq 0 (index df))
  /\ Pd.getitem ("median_" +:+ axis) (summary_of df)
    = Some ((fun r => nanmedian (axis_cells axis r df)) <$> seq 0 (index df)).
Proof.
  unfold summary_of. intros [-> | ->]; split.
  - rewrite (summarise_step_other "y") by done.
    by rewrite summarise_step_mean by auto.
  - rewrite (summarise_step_other "y") by done.
    by rewrite summarise_step_median by auto.
  - rewrite summarise_step_mean by auto. rewrite index_summarise_step.
    f_equal. apply list_fmap_ext. intros _ r _. by rewrite axis_cells_step_x.
  - rewrite summarise_step_median by auto. rewrite index_summarise_step.
    f_equal. apply list_fmap_ext. intros _ r _. by rewrite axis_cells_step_x.
Qed.

(** Without a column on the axis a row has no cell on it. *)
Lemma axis_cells_none (axis : string) (r : nat) (df : Frame F) :
  (forall c, c ∈ Pd.names df -> Py.startswith axis c = false) ->
  axis_cells axis r df = [].
Proof.
  intros Hno. unfold axis_cells, Pd.names in *.
  induction (columns df) as [|c cs IH]; [done|].
  rewrite filter_cons_False.
  - apply IH. intros s Hs. apply Hno. cbn. by right.
  - rewrite (Hno c.1); [cbn; tauto|]. cbn. by left.
Qed.

Lemma fmap_seq_const {B : Type} (b : B) (f : nat -> B) (start n : nat) :
  (forall r, f r = b) -> f <$> seq start n = replicate n b.
Proof.
  intros Hf. revert start. induction n as [|n IH]; intros start; [done|].
  cbn. by rewrite Hf, IH.
Qed.

End EmptyAxis.

(** C9.  When no label of the table starts with the prefix of an axis,
    [summarise_metrics] still returns a table, and its mean and median
    columns for that axis hold the missing marker at every row. *)
Theorem empty_axis_is_missing {PF : PyFloat} (h : gmap loc (Frame F))
    (l : loc) (df : Frame F) (axis : string) :
  h !! l = Some df ->
  axis = "x" \/ axis = "y" ->
  (forall c, c ∈ Pd.names df -> Py.startswith axis c = false) ->
  exists h' l' out,
    summarise_metrics h l = Some (h', l')
    /\ h' !! l' = Some out
    /\ index out = index df
    /\ Pd.getitem ("mean_" +:+ axis) out = Some (replicate (index df) nan)
    /\ Pd.getitem ("median_" +:+ axis) out = Some (replicate (index df) nan).
Proof.
  intros Hl Hax Hno.
  exists (<[fresh (dom h) := summary_of df]> h), (fresh (dom h)), (summary_of df).
  destruct (summary_of_columns df axis Hax) as [Hmean Hmedian].
  split_and!.
  - by apply summarise_metrics_spec.
  - apply lookup_insert_eq.
  - reflexivity.
  - rewrite Hmean. f_equal. apply fmap_seq_const.
    intros r. by rewrite axis_cells_none.
  - rewrite Hmedian. f_equal. apply fmap_seq_const.
    intros r. by rewrite axis_cells_none.
Qed.

Lemma empty_axis_is_missing_witness :
  exists h' l' out,
    summarise_metrics (PF := Decimal.floats) {[ 1%positive := y_only_table ]}
      1%positive = Some (h', l')
    /\ h' !! l' = Some out
    /\ index out = 2
    /\ Pd.getitem "mean_x" out = Some [None; None]
    /\ Pd.getitem "median_x" out = Some [None; None].
Proof.
  apply (empty_axis_is_missing (PF := Decimal.floats)
           {[ 1%positive := y_only_table ]} 1%positive y_only_table "x").
  - apply lookup_singleton_eq.
  - by left.
  - intros c Hc. apply list_elem_of_In in Hc. cbn in Hc.
    destruct Hc as [<- | []]. reflexivity.
Defined.

(** ** The per-file loop *)

Section MainProperties.
Context {PF : PyFloat}.
Variable show : Frame pyval -> Frame F -> exn + unit.

(** When loading fails, the handler runs and the file stays. *)
Lemma process_upload_load_error (fs : gmap string (list string))
    (u : Upload) (e : exn) :
  load_data (getbuffer u) = inl e ->
  process_upload show fs u = (<[name u := getbuffer u]> fs, Some e).
Proof.
  intros He. unfold process_upload, try_body.
  rewrite lookup_insert_eq. cbn [from_option id]. by rewrite He.
Qed.

(** When showing fails, the handler runs and the file stays. *)
Lemma process_upload_show_error (fs : gmap string (list string))
    (u : Upload) (e : exn) (df_meta : Frame pyval) (df_coordinates : Frame F) :
  load_data (getbuffer u) = inr (df_meta, df_coordinates) ->
  show df_meta (summary_of df_coordinates) = inl e ->
  process_upload show fs u = (<[name u := getbuffer u]> fs, Some e).
Proof.
  intros Hl He. unfold process_upload, try_body.
  rewrite lookup_insert_eq. cbn [from_option id]. rewrite Hl. cbn. by rewrite He.
Qed.

(** When nothing fails, the file is unlinked. *)
Lemma process_upload_ok (fs : gmap string (list string))
    (u : Upload) (df_meta : Frame pyval) (df_coordinates : Frame F) :
  load_data (getbuffer u) = inr (df_meta, df_coordinates) ->
  show df_meta (summary_of df_coordinates) = inr tt ->
  process_upload show fs u = (delete (name u) fs, None)
  /\ (process_upload show fs u).1 !! name u = None.
Proof.
  intros Hl Hs. unfold process_upload, try_body.
  rewrite lookup_insert_eq. cbn [from_option id]. rewrite Hl. cbn. rewrite Hs. cbn.
  rewrite delete_insert_eq. split; [done|]. apply lookup_delete_eq.
Qed.

End MainProperties.

(** ** The coordinate table *)

Section CoordinateProperties.
Context {PF : PyFloat}.
Implicit Types (df : Frame F) (key : string) (v c : list F).

Lemma length_reindex n c : length (reindex n c) = n.
Proof.
  unfold reindex. rewrite length_take, length_app, length_replicate. lia.
Qed.

Lemma reindex_id n c : length c = n -> reindex n c = c.
Proof.
  intros <-. unfold reindex. rewrite Nat.sub_diag. cbn.
  rewrite app_nil_r. apply firstn_all.
Qed.

Lemma reindex_nil n : reindex n [] = replicate n nan.
Proof.
  unfold reindex. cbn. rewrite Nat.sub_0_r.
  rewrite take_ge; [done|]. by rewrite length_replicate.
Qed.

Lemma length_zero_nil c : length c = 0 -> c = [].
Proof. by destruct c. Qed.

(** Reindexing in two steps, each of which starts from no rows or keeps
    the rows, is reindexing in one step. *)
Lemma reindex_reindex n m c :
  length c = m \/ c = [] -> m = 0 \/ m = n ->
  reindex n (reindex m c) = reindex n c.
Proof.
  intros [Hc | ->] [-> | ->].
  - by rewrite (reindex_id 0 c).
  - by rewrite !(reindex_id n c).
  - by rewrite (reindex_id 0 []).
  - rewrite (reindex_id n (reindex n [])); [done|]. apply length_reindex.
Qed.

Lemma reindex_as_column n c :
  c = [] \/ length c = n -> reindex n c = as_column n c.
Proof.
  intros [-> | H].
  - apply reindex_nil.
  - rewrite reindex_id by done. destruct c as [|x c]; [|done].
    cbn in H. by subst n.
Qed.

Lemma fmap_reindex_id (cols : list (string * list F)) n :
  Forall (fun col => length col.2 = n) cols ->
  (fun col => (col.1, reindex n col.2)) <$> cols = cols.
Proof.
  induction 1 as [|[k c] cols Hc _ IH]; [done|].
  cbn in *. by rewrite IH, reindex_id.
Qed.

(** [setitem_list] only raises [ValueError]. *)
Lemma setitem_list_error key v df e :
  setitem_list key v df = inl e -> e = ValueError.
Proof.
  unfold setitem_list. case_match; [done|]. by intros [= <-].
Qed.

(** A list is accepted by a frame without rows and by a frame with as
    many rows as it has entries, and by no other. *)
Lemma setitem_list_is_inr key v df :
  (exists df', setitem_list key v df = inr df')
  <-> index df = 0 \/ length v = index df.
Proof.
  unfold setitem_list, ensure_valid_index.
  destruct (index df =? 0) eqn:H0; cbn [andb].
  - apply Nat.eqb_eq in H0. destruct (0 <? length v) eqn:Hv.
    + cbn [index]. rewrite Nat.eqb_refl. split; eauto.
    + apply Nat.ltb_ge in Hv. rewrite H0.
      replace (length v =? 0) with true
        by (symmetry; apply Nat.eqb_eq; lia).
      split; eauto.
  - apply Nat.eqb_neq in H0. destruct (length v =? index df) eqn:Hv.
    + apply Nat.eqb_eq in Hv. split; eauto.
    + apply Nat.eqb_neq in Hv. split; [by intros [? ?]|]. lia.
Qed.

(** What an accepted list does to a frame that does not have its label:
    the frame has the length of the list as its index afterwards, its old
    columns reindexed to it, and the list as its last column. *)
Lemma setitem_list_inr key v df df' :
  Pd.lengths_ok df -> key ∉ Pd.names df ->
  setitem_list key v df = inr df' ->
  length v = index df'
  /\ (index df = 0 \/ index df = index df')
  /\ columns df'
     = ((fun col => (col.1, reindex (index df') col.2)) <$> columns df)
       ++ [(key, v)].
Proof.
  intros Hok Hkey. unfold setitem_list, ensure_valid_index.
  destruct (index df =? 0) eqn:H0; cbn [andb].
  - apply Nat.eqb_eq in H0. destruct (0 <? length v) eqn:Hv.
    + cbn [index]. rewrite Nat.eqb_refl. intros [= <-].
      split_and!; [done | by left |].
      rewrite columns_set_column_fresh; [done|].
      unfold Pd.names in *. cbn [columns].
      by rewrite <- list_fmap_compose.
    + apply Nat.ltb_ge in Hv. destruct (length v =? index df) eqn:Hl; [|done].
      apply Nat.eqb_eq in Hl. intros [= <-].
      rewrite columns_set_column_fresh by done. cbn [index Pd.set_column].
      split_and!; [done | by left |]. by rewrite fmap_reindex_id.
  - destruct (length v =? index df) eqn:Hl; [|done].
    apply Nat.eqb_eq in Hl. intros [= <-].
    rewrite columns_set_column_fresh by done. cbn [index Pd.set_column].
    split_and!; [done | by right |]. by rewrite fmap_reindex_id.
Qed.

Lemma setitem_list_index key v df df' :
  setitem_list key v df = inr df' ->
  index df' = if index df =? 0 then length v else index df.
Proof.
  unfold setitem_list, ensure_valid_index.
  destruct (index df =? 0) eqn:H0; cbn [andb].
  - apply Nat.eqb_eq in H0. destruct (0 <? length v) eqn:Hv.
    + cbn [index]. rewrite Nat.eqb_refl. by intros [= <-].
    + destruct (length v =? index df) eqn:Hl; [|done].
      apply Nat.eqb_eq in Hl. intros [= <-]. cbn. lia.
  - destruct (length v =? index df); [|done]. by intros [= <-].
Qed.

Lemma setitem_list_lengths key v df df' :
  Pd.lengths_ok df -> key ∉ Pd.names df ->
  setitem_list key v df = inr df' -> Pd.lengths_ok df'.
Proof.
  intros Hok Hkey Hs.
  destruct (setitem_list_inr _ _ _ _ Hok Hkey Hs) as (Hv & _ & Hc).
  unfold Pd.lengths_ok. rewrite Hc. apply Forall_app. split.
  - apply Forall_fmap, Forall_forall. intros col _. cbn. apply length_reindex.
  - by repeat constructor.
Qed.

Lemma setitem_list_names key v df df' :
  Pd.lengths_ok df -> key ∉ Pd.names df ->
  setitem_list key v df = inr df' -> Pd.names df' = Pd.names df ++ [key].
Proof.
  intros Hok Hkey Hs.
  destruct (setitem_list_inr _ _ _ _ Hok Hkey Hs) as (_ & _ & Hc).
  unfold Pd.names. rewrite Hc, fmap_app, <- list_fmap_compose. done.
Qed.

End CoordinateProperties.

Section CoordinateLoop.
Context {PF : PyFloat}.
Implicit Types (df : Frame F) (blocks : list ScanBlock).

Lemma append_cons (a : ascii) (s t : string) :
  String a s +:+ t = String a (s +:+ t).
Proof. reflexivity. Qed.

Lemma label_x_ne_y (i j : nat) : "x_" +:+ pretty i <> "y_" +:+ pretty j.
Proof. rewrite !append_cons. discriminate. Qed.

Lemma label_inj (p : string) (i j : nat) :
  p +:+ pretty i = p +:+ pretty j -> i = j.
Proof. intros H. by apply (inj (String.app p)), (inj pretty) in H. Qed.

Lemma coordinate_arrays_cons b blocks :
  coordinate_arrays (b :: blocks) = X b :: Y b :: coordinate_arrays blocks.
Proof. reflexivity. Qed.

Lemma coordinate_labels_S i n :
  coordinate_labels i (S n)
  = ("x_" +:+ pretty i) :: ("y_" +:+ pretty i) :: coordinate_labels (S i) n.
Proof. reflexivity. Qed.

Lemma not_ragged_nil : ~ ragged (PF := PF) [].
Proof. intros (i & j & a & b & _ & Hi & _). done. Qed.

(** Arrays are not ragged exactly when every non-empty array fixes the
    length of all arrays after it. *)
Lemma not_ragged_cons (a : list F) (l : list (list F)) :
  ~ ragged (a :: l)
  <-> (a <> [] -> Forall (fun b => length b = length a) l) /\ ~ ragged l.
Proof.
  split.
  - intros Hn. split.
    + intros Ha. apply Forall_lookup. intros j b Hj.
      destruct (decide (length b = length a)) as [|Hne]; [done|].
      destruct Hn. exists 0, (S j), a, b. split_and!; [lia|done..].
    + intros (i & j & x & y & Hij & Hi & Hj & Hx & Hlen). apply Hn.
      exists (S i), (S j), x, y. split_and!; [lia|done..].
  - intros [Hall Hl] (i & j & x & y & Hij & Hi & Hj & Hx & Hlen).
    destruct j as [|j]; [lia|]. cbn in Hj. destruct i as [|i].
    + injection Hi as <-. specialize (Hall Hx).
      rewrite Forall_lookup in Hall. by apply Hall in Hj.
    + apply Hl. exists i, j, x, y. split_and!; [lia|done..].
Qed.

(** The loop of lines 49-51 only raises [ValueError]. *)
Lemma coordinates_loop_error blocks i df e :
  coordinates_loop i blocks df = inl e -> e = ValueError.
Proof.
  revert i df. induction blocks as [|b bs IH]; intros i df; [done|].
  cbn [coordinates_loop].
  destruct (setitem_list _ (X b) df) as [e1|df1] eqn:Hx; cbn [bind_exn].
  { intros [= <-]. by eapply setitem_list_error. }
  destruct (setitem_list _ (Y b) df1) as [e2|df2] eqn:Hy; cbn [bind_exn].
  { intros [= <-]. by eapply setitem_list_error. }
  apply IH.
Qed.

(** The table that the loop builds, when it builds one. *)
Lemma coordinates_loop_inr blocks : forall i df df',
  Pd.lengths_ok df ->
  (forall j, i <= j ->
     (("x_" +:+ pretty j) ∉ Pd.names df) /\ (("y_" +:+ pretty j) ∉ Pd.names df)) ->
  coordinates_loop i blocks df = inr df' ->
  (index df = 0 \/ index df = index df')
  /\ (index df <> 0 ->
        Forall (fun a => length a = index df) (coordinate_arrays blocks))
  /\ Forall (fun a => a = [] \/ length a = index df') (coordinate_arrays blocks)
  /\ ~ ragged (coordinate_arrays blocks)
  /\ columns df'
     = (fun col => (col.1, reindex (index df') col.2))
         <$> (columns df
                ++ zip (coordinate_labels i (length blocks))
                     (coordinate_arrays blocks)).
Proof.
  induction blocks as [|b bs IH]; intros i df df' Hok Hfresh Hloop.
  - cbn in Hloop. injection Hloop as <-. split_and!.
    + by right.
    + constructor.
    + constructor.
    + apply not_ragged_nil.
    + cbn. rewrite app_nil_r. symmetry. by apply fmap_reindex_id.
  - cbn [coordinates_loop] in Hloop.
    destruct (setitem_list _ (X b) df) as [e1|df1] eqn:Hx;
      cbn [bind_exn] in Hloop; [done|].
    destruct (setitem_list _ (Y b) df1) as [e2|df2] eqn:Hy;
      cbn [bind_exn] in Hloop; [done|].
    destruct (Hfresh i) as [Hxi Hyi]; [lia|].
    destruct (setitem_list_inr _ _ _ _ Hok Hxi Hx) as (Lx & Ix & Cx).
    pose proof (setitem_list_lengths _ _ _ _ Hok Hxi Hx) as Hok1.
    pose proof (setitem_list_names _ _ _ _ Hok Hxi Hx) as Hn1.
    assert (Hyi1 : ("y_" +:+ pretty i) ∉ Pd.names df1).
    { rewrite Hn1. apply not_elem_of_app. split; [done|].
      apply not_elem_of_cons. split; [|apply not_elem_of_nil].
      intros H. symmetry in H. by apply label_x_ne_y in H. }
    destruct (setitem_list_inr _ _ _ _ Hok1 Hyi1 Hy) as (Ly & Iy & Cy).
    pose proof (setitem_list_lengths _ _ _ _ Hok1 Hyi1 Hy) as Hok2.
    pose proof (setitem_list_names _ _ _ _ Hok1 Hyi1 Hy) as Hn2.
    assert (Hfresh2 : forall j, S i <= j ->
              (("x_" +:+ pretty j) ∉ Pd.names df2)
              /\ (("y_" +:+ pretty j) ∉ Pd.names df2)).
    { intros j Hj. destruct (Hfresh j) as [Hxj Hyj]; [lia|].
      rewrite Hn2, Hn1. split.
      - intros [[H|H]%elem_of_app|H]%elem_of_app; [done| |].
        + apply list_elem_of_singleton, label_inj in H. lia.
        + apply list_elem_of_singleton in H. by apply label_x_ne_y in H.
      - intros [[H|H]%elem_of_app|H]%elem_of_app; [done| |].
        + apply list_elem_of_singleton in H. symmetry in H.
          by apply label_x_ne_y in H.
        + apply list_elem_of_singleton, label_inj in H. lia. }
    destruct (IH (S i) df2 df' Hok2 Hfresh2 Hloop) as (I2 & A2 & F2 & R2 & C2).
    rewrite coordinate_arrays_cons. cbn [length].
    rewrite coordinate_labels_S. cbn [zip zip_with].
    assert (HX : X b = [] \/ length (X b) = index df').
    { destruct (decide (length (X b) = 0)) as [H0|H0].
      - left. by apply length_zero_nil.
      - right. lia. }
    assert (HY : Y b = [] \/ length (Y b) = index df').
    { destruct (decide (length (Y b) = 0)) as [H0|H0].
      - left. by apply length_zero_nil.
      - right. lia. }
    split_and!.
    + lia.
    + intros Hne. repeat constructor; [lia | lia |].
      assert (H2 : index df2 <> 0) by lia.
      eapply Forall_impl; [apply (A2 H2)|]. cbn. intros a Ha. lia.
    + constructor; [exact HX|]. constructor; [exact HY|]. exact F2.
    + apply not_ragged_cons. split.
      { intros Hne. assert (length (X b) <> 0).
        { intros H0. by apply length_zero_nil in H0. }
        constructor; [lia|].
        assert (H2 : index df2 <> 0) by lia.
        eapply Forall_impl; [apply (A2 H2)|]. cbn. intros a Ha. lia. }
      apply not_ragged_cons. split; [|done].
      intros Hne. assert (length (Y b) <> 0).
      { intros H0. by apply length_zero_nil in H0. }
      assert (H2 : index df2 <> 0) by lia.
      eapply Forall_impl; [apply (A2 H2)|]. cbn. intros a Ha. lia.
    + rewrite C2, Cy, Cx.
      rewrite !fmap_app, <- !list_fmap_compose, <- !app_assoc.
      cbn [fmap list_fmap app fst snd].
      apply (f_equal2 app); [|apply (f_equal2 cons); [|done]].
      * apply Forall_fmap_ext_1.
        eapply Forall_impl; [apply Hok|]. intros [k c] Hc. cbn in *.
        f_equal.
        rewrite (reindex_reindex (index df2) (index df1) c).
        -- apply reindex_reindex; [|done].
           destruct (decide (length c = 0)) as [H0|H0].
           ++ right. by apply length_zero_nil.
           ++ left. lia.
        -- destruct (decide (length c = 0)) as [H0|H0].
           ++ right. by apply length_zero_nil.
           ++ left. lia.
        -- done.
      * cbn. f_equal. apply reindex_reindex; [|done].
        destruct (decide (length (X b) = 0)) as [H0|H0].
        -- right. by apply length_zero_nil.
        -- left. lia.
Qed.

(** The loop builds a table exactly when the arrays allow it. *)
Lemma coordinates_loop_is_inr blocks : forall i df,
  (index df <> 0 ->
     Forall (fun a => length a = index df) (coordinate_arrays blocks)) ->
  ~ ragged (coordinate_arrays blocks) ->
  exists df', coordinates_loop i blocks df = inr df'.
Proof.
  induction blocks as [|b bs IH]; intros i df Hall Hnr; [by eexists|].
  rewrite coordinate_arrays_cons in Hall, Hnr.
  apply not_ragged_cons in Hnr as [HXall Hnr].
  apply not_ragged_cons in Hnr as [HYall Hnr].
  cbn [coordinates_loop].
  destruct (proj2 (setitem_list_is_inr ("x_" +:+ pretty i) (X b) df))
    as [df1 Hx].
  { destruct (decide (index df = 0)) as [|Hne]; [by left|right].
    specialize (Hall Hne). by inversion Hall. }
  rewrite Hx. cbn [bind_exn].
  pose proof (setitem_list_index _ _ _ _ Hx) as H1.
  assert (Hall1 : index df1 <> 0 ->
            Forall (fun a => length a = index df1)
              (Y b :: coordinate_arrays bs)).
  { intros Hne1. destruct (index df =? 0) eqn:H0.
    - rewrite H1 in *. apply HXall. intros Hnil. by rewrite Hnil in Hne1.
    - apply Nat.eqb_neq in H0. rewrite H1.
      specialize (Hall H0). by inversion Hall. }
  destruct (proj2 (setitem_list_is_inr ("y_" +:+ pretty i) (Y b) df1))
    as [df2 Hy].
  { destruct (decide (index df1 = 0)) as [|Hne]; [by left|right].
    specialize (Hall1 Hne). by inversion Hall1. }
  rewrite Hy. cbn [bind_exn].
  pose proof (setitem_list_index _ _ _ _ Hy) as H2.
  apply IH; [|done].
  intros Hne2. destruct (index df1 =? 0) eqn:H0.
  - rewrite H2 in *. apply HYall. intros Hnil. by rewrite Hnil in Hne2.
  - apply Nat.eqb_neq in H0. rewrite H2.
    specialize (Hall1 H0). by inversion Hall1.
Qed.

(** With at least one block the metadata table has its five columns. *)
Lemma drop_records blocks :
  blocks <> [] ->
  exists df_meta,
    Pd.drop ["X"; "Y"] (frame_of_records blocks) = inr df_meta
    /\ index df_meta = length blocks
    /\ Pd.names df_meta
       = ["DateTime"; "Height"; "Gab"; "Angle"; "FixedPointHeight"].
Proof.
  intros Hne. destruct blocks as [|b bs]; [done|].
  eexists. split; [reflexivity|]. split; reflexivity.
Qed.

End CoordinateLoop.

Section RaggedTables.
Context {PF : PyFloat}.

Lemma ragged_cons_tail (a : list F) (l : list (list F)) :
  ragged l -> ragged (a :: l).
Proof.
  intros (i & j & x & y & Hij & Hi & Hj & Hx & Hlen).
  exists (S i), (S j), x, y. split_and!; [lia|done..].
Qed.

(** Whether arrays are ragged can be decided. *)
Lemma ragged_dec (l : list (list F)) : ragged l \/ ~ ragged l.
Proof.
  induction l as [|a l [IH|IH]].
  - right. apply not_ragged_nil.
  - left. by apply ragged_cons_tail.
  - destruct a as [|v a].
    { right. apply not_ragged_cons. by split. }
    destruct (decide (Forall (fun b => length b = length (v :: a)) l))
      as [Hall|Hex].
    + right. apply not_ragged_cons. by split.
    + left. apply not_Forall_Exists in Hex; [|intros x; apply _].
      apply Exists_exists in Hex as (b & Hb & Hlen).
      apply list_elem_of_lookup in Hb as [j Hj].
      exists 0, (S j), (v :: a), b. split_and!; [lia|done..].
Qed.

Lemma fmap_reindex_zip (n : nat) (arrays : list (list F)) :
  Forall (fun a => a = [] \/ length a = n) arrays ->
  forall labels : list string,
    (fun col : string * list F => (col.1, reindex n col.2))
      <$> zip labels arrays
    = zip labels (as_column n <$> arrays).
Proof.
  induction 1 as [|a arrays Ha _ IH]; intros [|k labels]; try done.
  cbn. by rewrite IH, reindex_as_column.
Qed.

(** With at least one block, [tables] is the loop of lines 49-51 next to
    the metadata table. *)
Lemma tables_cons (blocks : list ScanBlock) :
  blocks <> [] ->
  exists df_meta,
    index df_meta = length blocks
    /\ tables blocks
       = match coordinates_loop 0 blocks Pd.empty with
         | inl e => inl e
         | inr df_coordinates => inr (df_meta, df_coordinates)
         end.
Proof.
  intros Hne. destruct (drop_records blocks Hne) as (df_meta & Hd & Hi & _).
  exists df_meta. split; [done|]. unfold tables. rewrite Hd. cbn [bind_exn].
  by destruct (coordinates_loop 0 blocks Pd.empty).
Qed.

End RaggedTables.

(** ** Claim about ragged tables *)

(** C6, as the code has it.  When all blocks of a file parse (and there is
    at least one), the loop has accepted every block whatever the lengths
    of its arrays.  [load_data] then raises [ValueError], and returns no
    table, exactly when some array differs in length from a non-empty
    array stored before it.  In every other case it returns its tables:
    one metadata row per block, and a coordinate table in which every
    column has one cell per row; an array of that many values is a column
    as it is, and an empty array, which can only come before the first
    non-empty one, is a column of missing markers. *)
Theorem ragged_table_policy {PF : PyFloat} (fh : list string)
    (blocks : list ScanBlock) :
  parse_loop fh [] = (blocks, None) ->
  blocks <> [] ->
  (ragged (coordinate_arrays blocks) <-> load_data fh = inl ValueError)
  /\ (~ ragged (coordinate_arrays blocks) <->
        exists df_meta df_coordinates,
          load_data fh = inr (df_meta, df_coordinates))
  /\ (forall df_meta df_coordinates,
        load_data fh = inr (df_meta, df_coordinates) ->
        index df_meta = length blocks
        /\ Pd.lengths_ok df_coordinates
        /\ columns df_coordinates
           = zip (coordinate_labels 0 (length blocks))
               (as_column (index df_coordinates) <$> coordinate_arrays blocks)).
Proof.
  intros Hp Hne. rewrite (load_data_tables _ _ Hp).
  destruct (tables_cons blocks Hne) as (df_meta & Hi & ->).
  destruct (coordinates_loop 0 blocks Pd.empty) as [e|df_c] eqn:Hloop.
  - apply coordinates_loop_error in Hloop as He. subst e.
    assert (Hr : ragged (coordinate_arrays blocks)).
    { destruct (ragged_dec (coordinate_arrays blocks)) as [|Hnr]; [done|].
      destruct (coordinates_loop_is_inr blocks 0 Pd.empty) as [df' Hdf'];
        [done | done | congruence]. }
    split_and!.
    + done.
    + split; [done|]. by intros (? & ? & ?).
    + done.
  - destruct (coordinates_loop_inr blocks 0 Pd.empty df_c)
      as (_ & _ & Hall & Hnr & Hc).
    { constructor. }
    { intros j _. split; apply not_elem_of_nil. }
    { done. }
    cbn [Pd.empty columns app] in Hc.
    rewrite (fmap_reindex_zip _ _ Hall) in Hc.
    split_and!.
    + split; [done|]. intros [=].
    + split; [eauto|done].
    + intros m c [= <- <-]. split_and!; [done| |done].
      unfold Pd.lengths_ok. rewrite Hc.
      clear Hc Hnr Hloop. generalize (coordinate_labels 0 (length blocks)).
      induction Hall as [|a arrays Ha _ IH]; intros [|k labels];
        cbn; try by constructor.
      constructor; [|apply IH]. cbn.
      destruct Ha as [-> | Ha]; [apply length_replicate|].
      destruct a; [apply length_replicate | exact Ha].
Qed.

Lemma ragged_table_policy_witness :
  exists blocks df_meta df_coordinates,
    parse_loop (PF := Decimal.floats) leading_empty_file [] = (blocks, None)
    /\ blocks <> []
    /\ ~ ragged (coordinate_arrays blocks)
    /\ load_data (PF := Decimal.floats) leading_empty_file
       = inr (df_meta, df_coordinates)
    /\ index df_meta = 2
    /\ df_coordinates
       = mkFrame 1 [ ("x_0", [None]); ("y_0", [None]);
                     ("x_1", [Some 5%Q]); ("y_1", [Some 6%Q]) ].
Proof.
  destruct (ragged_table_policy (PF := Decimal.floats) leading_empty_file
              (parse_loop (PF := Decimal.floats) leading_empty_file []).1)
    as (_ & Hnr & _); [reflexivity | done |].
  eexists _, _, _. split; [reflexivity|]. split; [done|].
  split; [apply Hnr; eexists _, _; reflexivity|].
  split; [reflexivity|]. split; reflexivity.
Defined.

(** The two blocks of [ragged_file] parse, with two points and with one
    point, and [load_data] raises instead of returning a table with
    missing cells. *)
Lemma ragged_file_raises :
  exists b1 b2,
    parse_loop (PF := Decimal.floats) ragged_file [] = ([b1; b2], None)
    /\ length (X b1) = 2 /\ length (X b2) = 1
    /\ load_data (PF := Decimal.floats) ragged_file = inl ValueError.
Proof.
  eexists _, _. split; [reflexivity|]. split_and!; reflexivity.
Qed.

(* ================================================================== *)
(** * Further properties of the code *)

(** ** Splitting, trimming and the timestamp test *)

Lemma split_length (sep : ascii) (s : string) :
  length (Py.split sep s) = S (PyStr.count sep s).
Proof.
  induction s as [|c s IH]; [done|]. cbn.
  destruct (Ascii.eqb c sep); cbn; [by rewrite IH|].
  destruct (Py.split sep s); cbn in *; lia.
Qed.

Lemma lstrip_starts (s : string) :
  match Py.lstrip s with
  | String c _ => Py.isspace c = false
  | EmptyString => True
  end.
Proof.
  induction s as [|c s IH]; [done|]. cbn.
  destruct (Py.isspace c) eqn:Hc; [done|]. cbn. done.
Qed.

Lemma lstrip_id (s : string) :
  match s with String c _ => Py.isspace c = false | EmptyString => True end ->
  Py.lstrip s = s.
Proof. destruct s as [|c s]; [done|]. cbn. by intros ->. Qed.

Lemma rstrip_starts (s : string) :
  match s with String c _ => Py.isspace c = false | EmptyString => True end ->
  match Py.rstrip s with
  | String c _ => Py.isspace c = false
  | EmptyString => True
  end.
Proof.
  destruct s as [|c s]; [done|]. cbn. intros Hc.
  destruct (Py.rstrip s); [by rewrite Hc|done].
Qed.

Lemma rstrip_idem (s : string) : Py.rstrip (Py.rstrip s) = Py.rstrip s.
Proof.
  induction s as [|c s IH]; [done|]. cbn.
  destruct (Py.rstrip s) as [|d r] eqn:Hr.
  - destruct (Py.isspace c) eqn:Hc; [done|]. cbn. by rewrite Hc.
  - change (Py.rstrip (String c (String d r)))
      with (match Py.rstrip (String d r) with
            | EmptyString =>
                if Py.isspace c then EmptyString else String c EmptyString
            | r' => String c r'
            end).
    by rewrite IH.
Qed.

(** Trimming twice is trimming once. *)
Lemma strip_idem (s : string) : Py.strip (Py.strip s) = Py.strip s.
Proof.
  unfold Py.strip.
  rewrite (lstrip_id (Py.rstrip (Py.lstrip s))).
  - apply rstrip_idem.
  - apply rstrip_starts, lstrip_starts.
Qed.

Lemma append_assoc (a b c : string) : (a +:+ b) +:+ c = a +:+ (b +:+ c).
Proof. induction a as [|x a IH]; [done|]. by rewrite !append_cons, IH. Qed.

Lemma length_append (a b : string) :
  String.length (a +:+ b) = String.length a + String.length b.
Proof.
  induction a as [|x a IH]; [done|]. rewrite append_cons. cbn. by rewrite IH.
Qed.

Lemma length_list_ascii (s : string) :
  length (list_ascii_of_string s) = String.length s.
Proof. induction s as [|c s IH]; [done|]. cbn. by rewrite IH. Qed.

(** X1.  [looks_like_datetime] only looks at the first nineteen
    characters: a text that passes has at least that many, and it still
    passes with anything appended to it.  The match is anchored at the
    start: no text whose first character is no digit passes, whatever
    follows that character, and neither does the empty text. *)
Theorem looks_like_datetime_prefix (s : string) :
  (looks_like_datetime s = true ->
     19 <= String.length s
     /\ (forall t, looks_like_datetime (s +:+ t) = true))
  /\ (forall c, Py.isdigit c = false ->
        looks_like_datetime (String c s) = false)
  /\ looks_like_datetime EmptyString = false.
Proof.
  split_and!.
  - intros H.
    apply looks_like_datetime_spec in H as (pre & rest & -> & Hshape). split.
    + rewrite length_append, <- (length_list_ascii pre).
      apply Forall2_length in Hshape. cbn in Hshape. lia.
    + intros t. apply looks_like_datetime_spec.
      exists pre, (rest +:+ t). split; [apply append_assoc|done].
  - intros c Hc. unfold looks_like_datetime, Re.match_, datetime_pattern.
    cbn [Re.run Re.times]. by rewrite Hc.
  - reflexivity.
Qed.

Lemma looks_like_datetime_prefix_witness :
  19 <= String.length "2025-05-26T14:58:59"
  /\ (forall t, looks_like_datetime ("2025-05-26T14:58:59" +:+ t) = true)
  /\ looks_like_datetime "Header" = false
  /\ looks_like_datetime " 2025-05-26T14:58:59" = false.
Proof.
  destruct (looks_like_datetime_prefix "2025-05-26T14:58:59") as [Hpass _].
  destruct (Hpass eq_refl) as [Hlen Hext].
  destruct (looks_like_datetime_prefix "eader") as (_ & Hheader & _).
  destruct (looks_like_datetime_prefix "2025-05-26T14:58:59")
    as (_ & Hblank & _).
  split_and!; [exact Hlen | exact Hext | |].
  - apply (Hheader "H"%char). reflexivity.
  - apply (Hblank " "%char). reflexivity.
Defined.

(** X2.  Fields are counted by semicolons: a block-start candidate holds
    exactly four of them, and a row yields one value less than its
    trimmed text holds semicolons (none for a row without any). *)
Theorem fields_by_semicolons (line raw : string) :
  block_start_candidate line ->
  PyStr.count ";" line = 4
  /\ length (row_cells raw) = PyStr.count ";" (Py.strip raw) - 1.
Proof.
  intros (f1 & f2 & f3 & f4 & f5 & Hs & _). split.
  - pose proof (split_length ";" line) as Hl. rewrite Hs in Hl. cbn in Hl. lia.
  - rewrite row_cells_length, split_length. lia.
Qed.

Lemma fields_by_semicolons_witness :
  PyStr.count ";" "2025-05-26T14:58:59;10.0;2.0;0.0;1.5" = 4
  /\ length (row_cells (line "X;;1.0;2.0"))
     = PyStr.count ";" (Py.strip (line "X;;1.0;2.0")) - 1.
Proof.
  apply (fields_by_semicolons "2025-05-26T14:58:59;10.0;2.0;0.0;1.5").
  apply skipped_spec. reflexivity.
Defined.

(** ** The parsing loop as a whole *)

Section ParserExtras.
Context {PF : PyFloat}.

Lemma row_cells_strip (a b : string) :
  Py.strip a = Py.strip b -> row_cells a = row_cells b.
Proof. unfold row_cells. by intros ->. Qed.

(** Two files whose lines agree after trimming are parsed alike. *)
Lemma parse_loop_strip_congruence (fh : list string) :
  forall blocks fh',
    Forall2 (fun a b => Py.strip a = Py.strip b) fh fh' ->
    parse_loop fh' blocks = parse_loop fh blocks.
Proof.
  intros blocks. revert fh blocks.
  refine (parse_loop_cases
    (fun fh blocks res => forall fh',
       Forall2 (fun a b => Py.strip a = Py.strip b) fh fh' ->
       parse_loop fh' blocks = res) _ _ _ _ _).
  - intros blocks fh' HF. by inversion HF.
  - intros raw fh blocks Hn IH fh' HF.
    inversion HF as [|? raw' ? t' Hs HF']; subst.
    rewrite parse_loop_skip by (by rewrite <- Hs). by apply IH.
  - intros raw fh1 blocks Hc Hlen fh' HF.
    inversion HF as [|? raw' ? t' Hs HF']; subst.
    rewrite Hs in Hc. destruct Hc as (f1 & f2 & f3 & f4 & f5 & Hsp & Hts).
    rewrite (parse_loop_start _ _ _ _ _ _ _ _ Hsp Hts).
    apply Forall2_length in HF'.
    destruct t' as [|? [|? [|? ?]]]; cbn in HF'; try done. lia.
  - intros raw m x_raw y_raw fh4 blocks f1 f2 f3 f4 f5 Hsp Hts Hb fh' HF.
    inversion HF as [|? raw' ? t1 Hs HF1]; subst.
    inversion HF1 as [|? m' ? t2 _ HF2]; subst.
    inversion HF2 as [|? x' ? t3 Hx HF3]; subst.
    inversion HF3 as [|? y' ? t4 Hy HF4]; subst.
    rewrite Hs in Hsp.
    rewrite (parse_loop_start _ _ _ _ _ _ _ _ Hsp Hts).
    by rewrite <- (row_cells_strip _ _ Hx), <- (row_cells_strip _ _ Hy), Hb.
  - intros raw m x_raw y_raw fh4 blocks f1 f2 f3 f4 f5 b Hsp Hts Hb IH fh' HF.
    inversion HF as [|? raw' ? t1 Hs HF1]; subst.
    inversion HF1 as [|? m' ? t2 _ HF2]; subst.
    inversion HF2 as [|? x' ? t3 Hx HF3]; subst.
    inversion HF3 as [|? y' ? t4 Hy HF4]; subst.
    rewrite Hs in Hsp.
    rewrite (parse_loop_start _ _ _ _ _ _ _ _ Hsp Hts).
    rewrite <- (row_cells_strip _ _ Hx), <- (row_cells_strip _ _ Hy), Hb.
    by apply IH.
Qed.

(** The blocks found do not depend on the blocks found before. *)
Lemma parse_loop_acc (fh : list string) :
  forall acc,
    parse_loop fh acc
    = (acc ++ (parse_loop fh []).1, (parse_loop fh []).2).
Proof.
  revert fh.
  assert (H : forall fh (blocks : list ScanBlock), forall acc,
            parse_loop fh acc
            = (acc ++ (parse_loop fh []).1, (parse_loop fh []).2));
    [|by intros fh; apply (H fh [])].
  refine (parse_loop_cases
    (fun fh _ _ => forall acc,
       parse_loop fh acc
       = (acc ++ (parse_loop fh []).1, (parse_loop fh []).2)) _ _ _ _ _).
  - intros _ acc. cbn. by rewrite app_nil_r.
  - intros raw fh _ Hn IH acc. rewrite !parse_loop_skip by done. apply IH.
  - intros raw fh1 _ Hc Hlen acc.
    destruct Hc as (f1 & f2 & f3 & f4 & f5 & Hsp & Hts).
    rewrite !(parse_loop_start _ _ _ _ _ _ _ _ Hsp Hts).
    destruct fh1 as [|? [|? [|? ?]]]; cbn in Hlen; cbn;
      try (by rewrite app_nil_r). lia.
  - intros raw m x_raw y_raw fh4 _ f1 f2 f3 f4 f5 Hsp Hts Hb acc.
    rewrite !(parse_loop_start _ _ _ _ _ _ _ _ Hsp Hts), Hb. cbn.
    by rewrite app_nil_r.
  - intros raw m x_raw y_raw fh4 _ f1 f2 f3 f4 f5 b Hsp Hts Hb IH acc.
    rewrite !(parse_loop_start _ _ _ _ _ _ _ _ Hsp Hts), Hb.
    rewrite (IH (acc ++ [b])), (IH ([] ++ [b])). cbn.
    by rewrite <- app_assoc.
Qed.

(** Every block takes four lines of the file. *)
Lemma parse_loop_length (fh : list string) :
  forall blocks,
    4 * length (parse_loop fh blocks).1 <= 4 * length blocks + length fh.
Proof.
  intros blocks. revert fh blocks.
  refine (parse_loop_cases
    (fun fh blocks res =>
       4 * length res.1 <= 4 * length blocks + length fh) _ _ _ _ _);
    cbn [fst length]; intros; try lia.
  rewrite length_app in *. cbn in *. lia.
Qed.

(** The loop leaves with [StopIteration] or [ValueError] only. *)
Lemma parse_loop_exn (fh : list string) :
  forall blocks, (parse_loop fh blocks).2 <> Some KeyError.
Proof.
  intros blocks. revert fh blocks.
  by refine (parse_loop_cases (fun _ _ res => res.2 <> Some KeyError)
               _ _ _ _ _).
Qed.

End ParserExtras.

(** X3.  Only the trimmed text of a line matters: a file and the file
    with every line trimmed (line ends and outer blanks removed) leave
    the loop with the same blocks and the same exception, and load
    alike. *)
Theorem load_data_trimmed_lines {PF : PyFloat} (fh : list string)
    (blocks : list ScanBlock) :
  parse_loop (Py.strip <$> fh) blocks = parse_loop fh blocks
  /\ load_data (Py.strip <$> fh) = load_data fh.
Proof.
  assert (H : forall acc, parse_loop (Py.strip <$> fh) acc = parse_loop fh acc).
  { intros acc. apply parse_loop_strip_congruence.
    apply Forall2_fmap_r, Forall_Forall2_diag, Forall_forall.
    intros raw _. symmetry. apply strip_idem. }
  split; [apply H|]. unfold load_data. by rewrite H.
Qed.

(** X4.  The line after a block start is taken and never read: whatever
    stands in its place, even a line with the form of a block start, the
    file loads alike. *)
Theorem marker_is_not_read {PF : PyFloat} (pre : list string)
    (raw m m' : string) (rest : list string) (blocks : list ScanBlock) :
  parse_loop pre [] = (blocks, None) ->
  block_start_candidate (Py.strip raw) ->
  load_data (pre ++ raw :: m :: rest) = load_data (pre ++ raw :: m' :: rest).
Proof.
  intros Hpre (f1 & f2 & f3 & f4 & f5 & Hs & Hts). unfold load_data.
  rewrite !(parse_loop_app _ _ _ _ Hpre).
  rewrite !(parse_loop_start _ _ _ _ _ _ _ _ Hs Hts).
  by destruct rest as [|? [|? ?]].
Qed.

Lemma marker_is_not_read_witness :
  load_data (PF := Decimal.floats) scenario_file
  = load_data (PF := Decimal.floats)
      [ line "2025-05-26T14:58:59;10.0;2.0;0.0;1.5";
        line "2025-05-26T14:59:00;10.0;2.0;0.0;1.5";
        line "X;;1.0;2.0";
        line "Y;;3.0;4.0" ].
Proof.
  apply (marker_is_not_read (PF := Decimal.floats) []
           (line "2025-05-26T14:58:59;10.0;2.0;0.0;1.5")
           (line "SCAN") (line "2025-05-26T14:59:00;10.0;2.0;0.0;1.5")
           [line "X;;1.0;2.0"; line "Y;;3.0;4.0"] []).
  - reflexivity.
  - apply skipped_spec. reflexivity.
Defined.

(** X5.  Lines that are no block start, blank ones included, can be put
    in (or taken out) at any place where the loop looks for a block start
    without changing what the file loads to. *)
Theorem junk_between_blocks {PF : PyFloat} (pre junk rest : list string)
    (blocks : list ScanBlock) :
  parse_loop pre [] = (blocks, None) ->
  Forall (fun raw => ~ block_start_candidate (Py.strip raw)) junk ->
  parse_loop (pre ++ junk ++ rest) [] = parse_loop (pre ++ rest) []
  /\ load_data (pre ++ junk ++ rest) = load_data (pre ++ rest).
Proof.
  intros Hpre Hjunk.
  assert (H : parse_loop (pre ++ junk ++ rest) []
              = parse_loop (pre ++ rest) []).
  { rewrite !(parse_loop_app _ _ _ _ Hpre).
    apply parse_loop_app. by apply parse_loop_no_candidate. }
  split; [done|]. unfold load_data. by rewrite H.
Qed.

Lemma junk_between_blocks_witness :
  load_data (PF := Decimal.floats)
    (scenario_file ++ [nl; line "# second scan"; line "a;b;c;d;e"]
       ++ scenario_file)
  = load_data (PF := Decimal.floats) (scenario_file ++ scenario_file).
Proof.
  eapply (junk_between_blocks (PF := Decimal.floats) scenario_file
            [nl; line "# second scan"; line "a;b;c;d;e"] scenario_file).
  - reflexivity.
  - repeat constructor; apply skipped_true_spec; reflexivity.
Defined.

(** X6.  Files concatenate: when the loop ends normally on a first part,
    the blocks of the whole are the blocks of the first part followed by
    those of the rest parsed on its own, and the loop leaves the whole
    the way it leaves the rest. *)
Theorem parse_loop_concat {PF : PyFloat} (pre rest : list string)
    (blocks : list ScanBlock) :
  parse_loop pre [] = (blocks, None) ->
  parse_loop (pre ++ rest) []
  = (blocks ++ (parse_loop rest []).1, (parse_loop rest []).2).
Proof.
  intros Hpre. rewrite (parse_loop_app _ _ _ _ Hpre). apply parse_loop_acc.
Qed.

Lemma parse_loop_concat_witness :
  exists b,
    parse_loop (PF := Decimal.floats) scenario_file [] = ([b], None)
    /\ parse_loop (PF := Decimal.floats) (scenario_file ++ truncated_file) []
       = ([b; b], Some StopIteration).
Proof.
  eexists. split; [reflexivity|].
  rewrite (parse_loop_concat (PF := Decimal.floats) scenario_file
             truncated_file _ eq_refl).
  reflexivity.
Defined.

(** X7.  A block takes four lines: a file of [n] lines yields at most
    [n / 4] blocks, whether the loop ends normally or not. *)
Theorem four_lines_per_block {PF : PyFloat} (fh : list string) :
  4 * length (parse_loop fh []).1 <= length fh.
Proof. pose proof (parse_loop_length fh []) as H. cbn in H. lia. Qed.

(** X8.  What the exception of [load_data] tells: [KeyError] exactly when
    the loop ended normally without a single block, [StopIteration]
    exactly when the loop left with it, that is, in the middle of a
    block. *)
Theorem load_data_exceptions {PF : PyFloat} (fh : list string) :
  (load_data fh = inl KeyError <-> parse_loop fh [] = ([], None))
  /\ (load_data fh = inl StopIteration
      <-> exists blocks, parse_loop fh [] = (blocks, Some StopIteration)).
Proof.
  unfold load_data. pose proof (parse_loop_exn fh []) as Hk.
  destruct (parse_loop fh []) as [blocks [e|]] eqn:Hp; cbn in Hk.
  - split.
    + split; [|done]. intros [= ->]. done.
    + split; [intros [= ->]; eauto|]. by intros (? & [= _ ->]).
  - destruct blocks as [|b bs].
    + split; [done|]. split; [done|]. by intros (? & ?).
    + destruct (tables_cons (b :: bs)) as (df_meta & _ & ->); [done|].
      destruct (coordinates_loop 0 (b :: bs) Pd.empty) as [e|df_c] eqn:Hl.
      * apply coordinates_loop_error in Hl as ->.
        split; (split; [done|]); [done|]. by intros (? & ?).
      * split; (split; [done|]); [done|]. by intros (? & ?).
Qed.

(** ** The tables of a file that loads *)

Section TableExtras.
Context {PF : PyFloat}.

Lemma startswith_append (p s : string) : Py.startswith p (p +:+ s) = true.
Proof.
  unfold Py.startswith. induction p as [|c p IH].
  - change (EmptyString +:+ s) with s. by destruct s.
  - rewrite append_cons. cbn. by destruct (ascii_dec c c).
Qed.

Lemma coordinate_label_x (i : nat) : coordinate_label ("x_" +:+ pretty i).
Proof. left. apply startswith_append. Qed.

Lemma coordinate_label_y (i : nat) : coordinate_label ("y_" +:+ pretty i).
Proof. right. apply startswith_append. Qed.

Lemma coordinate_labels_from (i n : nat) (s : string) :
  s ∈ coordinate_labels i n ->
  exists j, i <= j /\ (s = "x_" +:+ pretty j \/ s = "y_" +:+ pretty j).
Proof.
  revert i. induction n as [|n IH]; intros i.
  - intros H. by apply elem_of_nil in H.
  - rewrite coordinate_labels_S.
    intros [->|[->|H]%elem_of_cons]%elem_of_cons.
    + exists i. split; [lia|by left].
    + exists i. split; [lia|by right].
    + destruct (IH _ H) as (j & Hj & Hs). exists j. split; [lia|done].
Qed.

Lemma coordinate_labels_NoDup (i n : nat) : NoDup (coordinate_labels i n).
Proof.
  revert i. induction n as [|n IH]; intros i; [constructor|].
  rewrite coordinate_labels_S. constructor; [|constructor; [|apply IH]].
  - intros [H|H]%elem_of_cons.
    + by apply label_x_ne_y in H.
    + apply coordinate_labels_from in H as (j & Hj & [H|H]).
      * apply label_inj in H. lia.
      * by apply label_x_ne_y in H.
  - intros H. apply coordinate_labels_from in H as (j & Hj & [H|H]).
    + symmetry in H. by apply label_x_ne_y in H.
    + apply label_inj in H. lia.
Qed.

Lemma coordinate_labels_length (i n : nat) :
  length (coordinate_labels i n) = 2 * n.
Proof.
  revert i. induction n as [|n IH]; intros i; [done|].
  rewrite coordinate_labels_S. cbn [length]. rewrite IH. lia.
Qed.

Lemma coordinate_arrays_length (blocks : list ScanBlock) :
  length (coordinate_arrays blocks) = 2 * length blocks.
Proof.
  induction blocks as [|b bs IH]; [done|].
  rewrite coordinate_arrays_cons. cbn [length]. rewrite IH. lia.
Qed.

(** The labels of the table that the loop builds from no table. *)
Lemma coordinates_loop_names (blocks : list ScanBlock) (df : Frame F) :
  coordinates_loop 0 blocks Pd.empty = inr df ->
  Pd.names df = coordinate_labels 0 (length blocks).
Proof.
  intros Hloop.
  destruct (coordinates_loop_inr blocks 0 Pd.empty df) as (_ & _ & _ & _ & Hc).
  { constructor. }
  { intros j _. split; apply not_elem_of_nil. }
  { done. }
  unfold Pd.names. rewrite Hc. cbn [Pd.empty columns app].
  rewrite <- list_fmap_compose.
  change (fst ∘ _) with (fst : string * list F -> string).
  apply fst_zip.
  rewrite coordinate_labels_length, coordinate_arrays_length. lia.
Qed.

(** What [load_data] returns comes from a loop that ended normally with
    at least one block. *)
Lemma load_data_inr (fh : list string) (df_meta : Frame pyval)
    (df_coordinates : Frame F) :
  load_data fh = inr (df_meta, df_coordinates) ->
  exists b bs,
    parse_loop fh [] = (b :: bs, None)
    /\ Pd.drop ["X"; "Y"] (frame_of_records (b :: bs)) = inr df_meta
    /\ coordinates_loop 0 (b :: bs) Pd.empty = inr df_coordinates.
Proof.
  unfold load_data. destruct (parse_loop fh []) as [blocks [e|]]; [done|].
  destruct blocks as [|b bs]; [done|]. intros H. exists b, bs.
  split; [done|]. unfold tables in H.
  destruct (Pd.drop _ _) as [e|m]; [done|]. cbn [bind_exn] in H.
  destruct (coordinates_loop _ _ _) as [e|c]; [done|]. cbn [bind_exn] in H.
  by injection H as -> ->.
Qed.

End TableExtras.

(** X9.  The metadata table of a file that loads has one row per block,
    in the order of the file, and exactly the five scalar columns:
    [DateTime] holds the trimmed first field as text and the other four
    hold the numbers read from fields two to five. *)
Theorem metadata_table {PF : PyFloat} (fh : list string)
    (df_meta : Frame pyval) (df_coordinates : Frame F) :
  load_data fh = inr (df_meta, df_coordinates) ->
  exists blocks,
    parse_loop fh [] = (blocks, None)
    /\ blocks <> []
    /\ df_meta =
         mkFrame (length blocks)
           [ ("DateTime", (fun b => VStr (DateTime b)) <$> blocks);
             ("Height", (fun b => VFloat (Height b)) <$> blocks);
             ("Gab", (fun b => VFloat (Gab b)) <$> blocks);
             ("Angle", (fun b => VFloat (Angle b)) <$> blocks);
             ("FixedPointHeight",
              (fun b => VFloat (FixedPointHeight b)) <$> blocks) ].
Proof.
  intros H. apply load_data_inr in H as (b & bs & Hp & Hd & _).
  exists (b :: bs). split; [done|]. split; [done|].
  by injection Hd as <-.
Qed.

Lemma metadata_table_witness :
  exists df_meta df_coordinates blocks,
    load_data (PF := Decimal.floats) scenario_file
    = inr (df_meta, df_coordinates)
    /\ parse_loop (PF := Decimal.floats) scenario_file [] = (blocks, None)
    /\ blocks <> []
    /\ df_meta =
         mkFrame (length blocks)
           [ ("DateTime", (fun b => VStr (DateTime b)) <$> blocks);
             ("Height", (fun b => VFloat (Height b)) <$> blocks);
             ("Gab", (fun b => VFloat (Gab b)) <$> blocks);
             ("Angle", (fun b => VFloat (Angle b)) <$> blocks);
             ("FixedPointHeight",
              (fun b => VFloat (FixedPointHeight b)) <$> blocks) ].
Proof.
  eexists _, _.
  destruct (metadata_table (PF := Decimal.floats) scenario_file _ _ eq_refl)
    as (blocks & H).
  exists blocks. split; [reflexivity|exact H].
Defined.

(** X10.  The coordinate table of a file that loads has the labels
    [x_0, y_0, x_1, y_1, ...], one pair per block in the order of the
    file; no label occurs twice, and the table is a CoordinateTable. *)
Theorem coordinate_table_labels {PF : PyFloat} (fh : list string)
    (df_meta : Frame pyval) (df_coordinates : Frame F) :
  load_data fh = inr (df_meta, df_coordinates) ->
  exists blocks,
    parse_loop fh [] = (blocks, None)
    /\ Pd.names df_coordinates = coordinate_labels 0 (length blocks)
    /\ length (columns df_coordinates) = 2 * length blocks
    /\ NoDup (Pd.names df_coordinates)
    /\ CoordinateTable df_coordinates.
Proof.
  intros H. apply load_data_inr in H as (b & bs & Hp & _ & Hl).
  exists (b :: bs). pose proof (coordinates_loop_names _ _ Hl) as Hn.
  split_and!; [done | done | | |].
  - rewrite <- (length_fmap fst). fold (Pd.names df_coordinates).
    by rewrite Hn, coordinate_labels_length.
  - rewrite Hn. apply coordinate_labels_NoDup.
  - unfold CoordinateTable. rewrite Hn. apply Forall_forall.
    intros s Hs. apply coordinate_labels_from in Hs as (j & _ & [-> | ->]).
    + apply coordinate_label_x.
    + apply coordinate_label_y.
Qed.

Lemma coordinate_table_labels_witness :
  exists df_meta df_coordinates,
    load_data (PF := Decimal.floats) leading_empty_file
    = inr (df_meta, df_coordinates)
    /\ Pd.names df_coordinates = ["x_0"; "y_0"; "x_1"; "y_1"]
    /\ NoDup (Pd.names df_coordinates)
    /\ CoordinateTable df_coordinates.
Proof.
  eexists _, _. split; [reflexivity|].
  destruct (coordinate_table_labels (PF := Decimal.floats) leading_empty_file
              _ _ eq_refl) as (blocks & _ & _ & _ & Hnd & Hct).
  split; [reflexivity|]. split; [exact Hnd | exact Hct].
Defined.

(** ** The summary of any table *)

Section SummaryExtras.
Context {PF : PyFloat}.
Implicit Types (df : Frame F) (key axis : string) (v : list F).

Lemma length_row_means axis df : length (row_means axis df) = index df.
Proof. unfold row_means. by rewrite length_fmap, length_seq. Qed.

Lemma length_row_medians axis df : length (row_medians axis df) = index df.
Proof. unfold row_medians. by rewrite length_fmap, length_seq. Qed.

(** One round of the loop stores the row means and then the row medians
    of the axis. *)
Lemma summarise_step_eq axis df :
  axis = "x" \/ axis = "y" ->
  summarise_step axis df
  = Pd.set_column ("median_" +:+ axis) (row_medians axis df)
      (Pd.set_column ("mean_" +:+ axis) (row_means axis df) df).
Proof.
  intros Hax. unfold summarise_step.
  assert (Hmean : mean_axis1 (Pd.select
            (filter (fun c => Py.startswith axis c) (Pd.names df)) df)
          = row_means axis df).
  { unfold mean_axis1, row_means. cbn [Pd.select index].
    apply list_fmap_ext. intros _ r _. f_equal. unfold axis_cells.
    exact (row_select (fun s => Py.startswith axis s) r df). }
  rewrite Hmean. f_equal.
  unfold median_axis1, row_medians. cbn [Pd.select index].
  apply list_fmap_ext. intros _ r _. f_equal. unfold axis_cells.
  unfold Pd.row. cbn [columns Pd.select].
  pose proof (filter_set_column
    (fun s => s ∈ filter (fun c => Py.startswith axis c) (Pd.names df))
    ("mean_" +:+ axis) (row_means axis df) df) as H.
  cbn beta in H. rewrite H.
  - exact (row_select (fun s => Py.startswith axis s) r df).
  - rewrite list_elem_of_filter. intros [Hs _].
    destruct (startswith_mean axis Hax) as [Hm _]. by rewrite Hm in Hs.
Qed.

Lemma axis_cells_set_column axis key v r df :
  Py.startswith axis key = false ->
  axis_cells axis r (Pd.set_column key v df) = axis_cells axis r df.
Proof.
  intros Hk. unfold axis_cells. f_equal.
  refine (filter_set_column (fun s => Py.startswith axis s) key v df _).
  rewrite Hk. cbn. tauto.
Qed.

Lemma row_means_set_column axis key v df :
  Py.startswith axis key = false ->
  row_means axis (Pd.set_column key v df) = row_means axis df.
Proof.
  intros Hk. unfold row_means. cbn [index Pd.set_column].
  apply list_fmap_ext. intros _ r _. by rewrite axis_cells_set_column.
Qed.

Lemma row_medians_set_column axis key v df :
  Py.startswith axis key = false ->
  row_medians axis (Pd.set_column key v df) = row_medians axis df.
Proof.
  intros Hk. unfold row_medians. cbn [index Pd.set_column].
  apply list_fmap_ext. intros _ r _. by rewrite axis_cells_set_column.
Qed.

(** After [df[key] = v] every column labelled [key] holds [v]. *)
Lemma set_column_holds key v df :
  Forall (fun c => c.1 = key -> c.2 = v) (columns (Pd.set_column key v df)).
Proof.
  cbn. case_bool_decide as Hin.
  - apply Forall_fmap, Forall_forall. intros c _. cbn.
    case_bool_decide; cbn; [done|]. by intros ?.
  - apply Forall_app. split; [|by repeat constructor].
    apply Forall_forall. intros c Hc Hk. destruct Hin.
    rewrite <- Hk. apply list_elem_of_fmap. eauto.
Qed.

Lemma set_column_holds_other key key' v v' df :
  key' <> key ->
  Forall (fun c => c.1 = key' -> c.2 = v') (columns df) ->
  Forall (fun c => c.1 = key' -> c.2 = v') (columns (Pd.set_column key v df)).
Proof.
  intros Hne Hh. cbn. case_bool_decide as Hin.
  - apply Forall_fmap. eapply Forall_impl; [exact Hh|].
    intros c Hc. cbn. case_bool_decide; cbn; [|done]. by intros ?.
  - apply Forall_app. split; [done|]. repeat constructor. cbn. by intros ?.
Qed.

Lemma names_set_column_existing key v df :
  key ∈ Pd.names df -> Pd.names (Pd.set_column key v df) = Pd.names df.
Proof.
  intros Hin. unfold Pd.names. cbn. rewrite bool_decide_eq_true_2 by done.
  rewrite <- list_fmap_compose. apply list_fmap_ext. intros _ c _. cbn.
  by case_bool_decide.
Qed.

Lemma set_column_in_names key v df : key ∈ Pd.names (Pd.set_column key v df).
Proof.
  destruct (decide (key ∈ Pd.names df)) as [Hin|Hin].
  - by rewrite names_set_column_existing.
  - rewrite names_set_column_fresh by done. apply elem_of_app. right.
    apply list_elem_of_here.
Qed.

Lemma set_column_names_mono key key' v df :
  key' ∈ Pd.names df -> key' ∈ Pd.names (Pd.set_column key v df).
Proof.
  intros H. destruct (decide (key ∈ Pd.names df)) as [Hin|Hin].
  - by rewrite names_set_column_existing.
  - rewrite names_set_column_fresh by done. apply elem_of_app. by left.
Qed.

(** Storing what is already there changes nothing. *)
Lemma set_column_id key v df :
  key ∈ Pd.names df ->
  Forall (fun c => c.1 = key -> c.2 = v) (columns df) ->
  Pd.set_column key v df = df.
Proof.
  intros Hin Hh. apply frame_eq; [done|]. cbn.
  rewrite bool_decide_eq_true_2 by done.
  induction Hh as [|[k c] cols Hc _ IH]; [done|].
  cbn in *. rewrite IH. case_bool_decide as Hk; [|done].
  subst k. by rewrite Hc.
Qed.

Lemma lengths_ok_set_column key v df :
  Pd.lengths_ok df -> length v = index df ->
  Pd.lengths_ok (Pd.set_column key v df).
Proof.
  intros Hok Hv. unfold Pd.lengths_ok in *. cbn. case_bool_decide.
  - apply Forall_fmap. eapply Forall_impl; [exact Hok|].
    intros c Hc. cbn. by case_bool_decide.
  - apply Forall_app. split; [done|]. by repeat constructor.
Qed.

Lemma lengths_ok_summarise_step axis df :
  Pd.lengths_ok df -> Pd.lengths_ok (summarise_step axis df).
Proof.
  intros Hok. unfold summarise_step.
  apply lengths_ok_set_column; [apply lengths_ok_set_column; [done|]|].
  - unfold mean_axis1. by rewrite length_fmap, length_seq.
  - unfold median_axis1. by rewrite length_fmap, length_seq.
Qed.

(** The labels of the summary of a CoordinateTable. *)
Lemma summary_of_names df :
  CoordinateTable df ->
  Pd.names (summary_of df)
  = Pd.names df ++ ["mean_x"; "median_x"; "mean_y"; "median_y"].
Proof.
  intros Hct.
  assert (Hno : forall s, s ∈ Pd.names df ->
            s <> "mean_x" /\ s <> "median_x" /\ s <> "mean_y" /\ s <> "median_y").
  { intros s Hs. apply coordinate_label_not_summary.
    unfold CoordinateTable in Hct. rewrite Forall_forall in Hct. auto. }
  destruct (summarise_step_fresh "x" df) as (mx & dx & Hx).
  { intros Hin. by destruct (Hno _ Hin) as (? & _). }
  { intros Hin. by destruct (Hno _ Hin) as (_ & ? & _). }
  assert (Hnames : Pd.names (summarise_step "x" df)
                   = Pd.names df ++ ["mean_x"; "median_x"]).
  { unfold Pd.names. by rewrite Hx, fmap_app. }
  destruct (summarise_step_fresh "y" (summarise_step "x" df)) as (my & dy & Hy).
  { rewrite Hnames. intros [Hin|Hin]%elem_of_app.
    - by destruct (Hno _ Hin) as (_ & _ & ? & _).
    - apply list_elem_of_In in Hin. cbn in Hin. intuition discriminate. }
  { rewrite Hnames. intros [Hin|Hin]%elem_of_app.
    - by destruct (Hno _ Hin) as (_ & _ & _ & ?).
    - apply list_elem_of_In in Hin. cbn in Hin. intuition discriminate. }
  unfold summary_of, Pd.names at 1. rewrite Hy, fmap_app.
  fold (Pd.names (summarise_step "x" df)). rewrite Hnames, <- app_assoc. done.
Qed.

(** A table that holds its own row means and medians is left as it is by
    a round of the loop. *)
Lemma summarise_step_fixed axis df :
  axis = "x" \/ axis = "y" ->
  ("mean_" +:+ axis) ∈ Pd.names df ->
  ("median_" +:+ axis) ∈ Pd.names df ->
  Forall (fun c => c.1 = "mean_" +:+ axis -> c.2 = row_means axis df)
    (columns df) ->
  Forall (fun c => c.1 = "median_" +:+ axis -> c.2 = row_medians axis df)
    (columns df) ->
  summarise_step axis df = df.
Proof.
  intros Hax Hn1 Hn2 Hh1 Hh2. rewrite summarise_step_eq by done.
  rewrite (set_column_id ("mean_" +:+ axis)) by done.
  by rewrite set_column_id.
Qed.

End SummaryExtras.

Section SummaryFixpoint.
Context {PF : PyFloat}.
Implicit Types (df : Frame F) (key axis : string) (v : list F).

Lemma row_means_summarise_step axis' axis df :
  axis = "x" \/ axis = "y" ->
  Py.startswith axis' ("mean_" +:+ axis) = false ->
  Py.startswith axis' ("median_" +:+ axis) = false ->
  row_means axis' (summarise_step axis df) = row_means axis' df.
Proof.
  intros Hax H1 H2. rewrite summarise_step_eq by done.
  by rewrite !row_means_set_column.
Qed.

Lemma row_medians_summarise_step axis' axis df :
  axis = "x" \/ axis = "y" ->
  Py.startswith axis' ("mean_" +:+ axis) = false ->
  Py.startswith axis' ("median_" +:+ axis) = false ->
  row_medians axis' (summarise_step axis df) = row_medians axis' df.
Proof.
  intros Hax H1 H2. rewrite summarise_step_eq by done.
  by rewrite !row_medians_set_column.
Qed.

Lemma holds_summarise_step key v axis df :
  axis = "x" \/ axis = "y" ->
  key <> "mean_" +:+ axis -> key <> "median_" +:+ axis ->
  Forall (fun c => c.1 = key -> c.2 = v) (columns df) ->
  Forall (fun c => c.1 = key -> c.2 = v) (columns (summarise_step axis df)).
Proof.
  intros Hax H1 H2 Hh. rewrite summarise_step_eq by done.
  by do 2 (apply set_column_holds_other; [done|]).
Qed.

Lemma names_summarise_step_mono key axis df :
  key ∈ Pd.names df -> key ∈ Pd.names (summarise_step axis df).
Proof.
  intros H. unfold summarise_step. by do 2 apply set_column_names_mono.
Qed.

(** After a round the table holds the row means and medians of its own
    columns on that axis. *)
Lemma summarise_step_established axis df :
  axis = "x" \/ axis = "y" ->
  ("mean_" +:+ axis) ∈ Pd.names (summarise_step axis df)
  /\ ("median_" +:+ axis) ∈ Pd.names (summarise_step axis df)
  /\ Forall (fun c => c.1 = "mean_" +:+ axis ->
                      c.2 = row_means axis (summarise_step axis df))
       (columns (summarise_step axis df))
  /\ Forall (fun c => c.1 = "median_" +:+ axis ->
                      c.2 = row_medians axis (summarise_step axis df))
       (columns (summarise_step axis df)).
Proof.
  intros Hax. destruct (startswith_mean axis Hax) as [Hm Hd].
  rewrite row_means_summarise_step, row_medians_summarise_step by done.
  rewrite summarise_step_eq by done. split_and!.
  - apply set_column_names_mono, set_column_in_names.
  - apply set_column_in_names.
  - apply set_column_holds_other; [apply mean_label_ne|].
    apply set_column_holds.
  - apply set_column_holds.
Qed.

End SummaryFixpoint.

(** X11.  The summary of a table whose columns all have one cell per row
    is again such a table, with the same rows; the two series that
    [create_plot] reads from it, [mean_x] and [mean_y], are always there
    and have one entry per row each, so the lookups of line 68 cannot
    raise and the scatter plot gets as many X as Y values. *)
Theorem summary_is_plottable {PF : PyFloat} (df : Frame F) :
  Pd.lengths_ok df ->
  index (summary_of df) = index df
  /\ Pd.lengths_ok (summary_of df)
  /\ exists xs ys,
       scatter_data (summary_of df) = inr (xs, ys)
       /\ length xs = index df /\ length ys = index df.
Proof.
  intros Hok. split; [done|]. split.
  { unfold summary_of. by do 2 apply lengths_ok_summarise_step. }
  destruct (summary_of_columns df "x") as [Hx _]; [by left|].
  destruct (summary_of_columns df "y") as [Hy _]; [by right|].
  eexists _, _. unfold scatter_data.
  change "mean_x" with ("mean_" +:+ "x").
  change "mean_y" with ("mean_" +:+ "y"). rewrite Hx, Hy.
  split; [done|]. by rewrite !length_fmap, !length_seq.
Qed.

Lemma summary_is_plottable_witness :
  index (summary_of (PF := Decimal.floats) example_table) = 2
  /\ Pd.lengths_ok (summary_of (PF := Decimal.floats) example_table)
  /\ exists xs ys,
       scatter_data (summary_of (PF := Decimal.floats) example_table)
       = inr (xs, ys)
       /\ length xs = 2 /\ length ys = 2.
Proof.
  apply (summary_is_plottable (PF := Decimal.floats) example_table).
  repeat constructor.
Defined.

(** X12.  Summarising a summary changes nothing: the four summary columns
    are stored again under their labels with the values they have,
    because their labels start with neither [x] nor [y] and so never
    count as coordinates. *)
Theorem summary_idempotent {PF : PyFloat} (df : Frame F) :
  summary_of (summary_of df) = summary_of df.
Proof.
  unfold summary_of.
  set (A := summarise_step "x" df).
  set (T := summarise_step "y" A).
  destruct (summarise_step_established "x" df) as (Hx1 & Hx2 & Hx3 & Hx4);
    [by left|].
  destruct (summarise_step_established "y" A) as (Hy1 & Hy2 & Hy3 & Hy4);
    [by right|].
  fold A in Hx1, Hx2, Hx3, Hx4. fold T in Hy1, Hy2, Hy3, Hy4.
  assert (HxT : summarise_step "x" T = T).
  { apply summarise_step_fixed; [by left| | | |].
    - by apply names_summarise_step_mono.
    - by apply names_summarise_step_mono.
    - unfold T. rewrite row_means_summarise_step by (done || by right).
      apply holds_summarise_step; [by right|done|done|done].
    - unfold T. rewrite row_medians_summarise_step by (done || by right).
      apply holds_summarise_step; [by right|done|done|done]. }
  rewrite HxT. apply summarise_step_fixed; [by right|done..].
Qed.

(** X13.  From file to plot: for a file that loads, the summary of its
    coordinate table has the labels [x_0, y_0, ..., mean_x, median_x,
    mean_y, median_y] in this order, one pair per block and the four
    summary labels last. *)
Theorem loaded_summary_labels {PF : PyFloat} (fh : list string)
    (df_meta : Frame pyval) (df_coordinates : Frame F) :
  load_data fh = inr (df_meta, df_coordinates) ->
  exists blocks,
    parse_loop fh [] = (blocks, None)
    /\ Pd.names (summary_of df_coordinates)
       = coordinate_labels 0 (length blocks)
         ++ ["mean_x"; "median_x"; "mean_y"; "median_y"].
Proof.
  intros H. apply load_data_inr in H as (b & bs & Hp & _ & Hl).
  exists (b :: bs). split; [done|].
  pose proof (coordinates_loop_names _ _ Hl) as Hn.
  rewrite summary_of_names; [by rewrite Hn|].
  unfold CoordinateTable. rewrite Hn. apply Forall_forall.
  intros s Hs. apply coordinate_labels_from in Hs as (j & _ & [-> | ->]).
  - apply coordinate_label_x.
  - apply coordinate_label_y.
Qed.

Lemma loaded_summary_labels_witness :
  exists df_meta df_coordinates,
    load_data (PF := Decimal.floats) scenario_file
    = inr (df_meta, df_coordinates)
    /\ Pd.names (summary_of df_coordinates)
       = ["x_0"; "y_0"; "mean_x"; "median_x"; "mean_y"; "median_y"].
Proof.
  eexists _, _. split; [reflexivity|].
  destruct (loaded_summary_labels (PF := Decimal.floats) scenario_file
              _ _ eq_refl) as (blocks & _ & Hn).
  reflexivity.
Defined.

(** X14.  With a single X column, [median_x] reproduces it: at a row where
    that column holds a value, the median is that value. *)
Theorem single_scan_median {PF : PyFloat} (df : Frame F) (r : nat) (v : F) :
  r < index df ->
  axis_cells "x" r df = [v] ->
  isnan v = false ->
  cell "median_x" r (summary_of df) = Some v.
Proof.
  intros Hr Hcells Hv.
  destruct (summary_of_cells df r Hr) as (_ & -> & _).
  unfold axis_values. rewrite Hcells. unfold present.
  rewrite filter_cons_True by done. done.
Qed.

Lemma single_scan_median_witness :
  cell (PF := Decimal.floats) "median_x" 1
    (summary_of (PF := Decimal.floats)
       (mkFrame 2 [ ("x_0", [Some 1%Q; Some 2%Q]);
                    ("y_0", [Some 3%Q; Some 4%Q]) ]))
  = Some (Some 2%Q).
Proof.
  apply (single_scan_median (PF := Decimal.floats)
           (mkFrame 2 [ ("x_0", [Some 1%Q; Some 2%Q]);
                        ("y_0", [Some 3%Q; Some 4%Q]) ]) 1 (Some 2%Q)).
  - cbn. lia.
  - reflexivity.
  - reflexivity.
Defined.

(** ** Tab titles and the whole of [main] *)

Lemma last_char_None (s : string) :
  PyStr.last_char s = None <-> s = EmptyString.
Proof.
  split; [|by intros ->].
  induction s as [|c s IH]; [done|]. cbn. destruct s; [done|].
  intros H. by apply IH in H.
Qed.

(** X15.  [get_tab_title] raises [IndexError] exactly when the stem of
    the file name has fewer than seven underscores (there is no eighth
    token) or its eighth token is empty (it has no last character).  The
    extension of the name and all tokens after the eighth play no part in
    this. *)
Theorem get_tab_title_raises (stem : string -> string) (u : Upload) :
  get_tab_title stem u = None
  <-> PyStr.count "_" (stem (name u)) < 7
      \/ Py.split "_" (stem (name u)) !! 7 = Some EmptyString.
Proof.
  unfold get_tab_title, token.
  pose proof (split_length "_" (stem (name u))) as Hlen.
  destruct (Py.split "_" (stem (name u)))
    as [|t0 [|t1 [|t2 [|t3 [|t4 [|t5 [|t6 [|t7 ts]]]]]]]];
    cbn in Hlen; cbn; try (split; [intros _; left; lia | done]).
  destruct (PyStr.last_char t7) as [c|] eqn:Hc; cbn.
  - split; [done|]. intros [?|[= ->]]; [lia|done].
  - apply last_char_None in Hc as ->. split; [by right|done].
Qed.

Section MainExtras.
Context {PF : PyFloat}.
Variable stem : string -> string.
Variable show : Frame pyval -> Frame F -> exn + unit.

(** One round of the loop: the report is the outcome of the upload, and
    its file is left behind or removed accordingly. *)
Lemma process_upload_outcome (fs : gmap string (list string)) (u : Upload) :
  process_upload show fs u
  = (match outcome show u with
     | Some _ => <[name u := getbuffer u]> fs
     | None => delete (name u) fs
     end, outcome show u).
Proof.
  unfold process_upload, try_body, outcome.
  rewrite lookup_insert_eq. cbn [from_option id].
  destruct (load_data (getbuffer u)) as [e|[df_meta df_coordinates]];
    cbn; [done|].
  destruct (show df_meta (summary_of df_coordinates)) as [e|[]]; cbn; [done|].
  by rewrite delete_insert_eq.
Qed.

Lemma main_loop_cons (fs : gmap string (list string)) (u : Upload)
    (rest : list Upload) :
  main_loop show fs (u :: rest)
  = ((main_loop show (process_upload show fs u).1 rest).1,
     (process_upload show fs u).2
       :: (main_loop show (process_upload show fs u).1 rest).2).
Proof.
  cbn [main_loop]. destruct (process_upload show fs u) as [fs1 r]. cbn.
  by destruct (main_loop show fs1 rest).
Qed.

Lemma main_loop_reports (fs : gmap string (list string))
    (uploaded_files : list Upload) :
  (main_loop show fs uploaded_files).2 = outcome show <$> uploaded_files.
Proof.
  revert fs. induction uploaded_files as [|u rest IH]; intros fs; [done|].
  rewrite main_loop_cons. cbn [snd fmap list_fmap].
  by rewrite IH, process_upload_outcome.
Qed.

Lemma main_loop_untouched (uploaded_files : list Upload) :
  forall (fs : gmap string (list string)) (n : string),
    n ∉ name <$> uploaded_files ->
    (main_loop show fs uploaded_files).1 !! n = fs !! n.
Proof.
  induction uploaded_files as [|u rest IH]; intros fs n Hn; [done|].
  rewrite main_loop_cons. cbn [fst].
  cbn [fmap list_fmap] in Hn. apply not_elem_of_cons in Hn as [Hne Hn].
  rewrite IH by done. rewrite process_upload_outcome. cbn [fst].
  destruct (outcome show u).
  - by rewrite lookup_insert_ne.
  - by rewrite lookup_delete_ne.
Qed.

End MainExtras.

(** X16.  A single badly named upload stops the whole page: when the
    stem of some upload's name has fewer than seven underscores, [main]
    leaves with the [IndexError] of line 122 before the loop starts; no
    upload is written or loaded, whatever the other uploads are, and the
    directory is as it was. *)
Theorem bad_name_aborts_main {PF : PyFloat} (stem : string -> string)
    (show : Frame pyval -> Frame F -> exn + unit)
    (fs : gmap string (list string)) (uploaded_files : list Upload)
    (u : Upload) :
  u ∈ uploaded_files ->
  PyStr.count "_" (stem (name u)) < 7 ->
  main stem show fs uploaded_files = (fs, Raised_IndexError).
Proof.
  intros Hin Hu. unfold main.
  destruct uploaded_files as [|u0 rest]; [by apply elem_of_nil in Hin|].
  assert (Hm : mapM (get_tab_title stem) (u0 :: rest) = None).
  { apply mapM_None, Exists_exists. exists u. split; [done|].
    apply get_tab_title_raises. by left. }
  by rewrite Hm.
Qed.

Lemma bad_name_aborts_main_witness :
  main (PF := Decimal.floats) Pathlib.stem (fun _ _ => inr tt) ∅
    [mkUpload good_name scenario_file; mkUpload short_name scenario_file]
  = (∅, Raised_IndexError).
Proof.
  apply (bad_name_aborts_main (PF := Decimal.floats) Pathlib.stem
           (fun _ _ => inr tt) ∅ _ (mkUpload short_name scenario_file)).
  - apply list_elem_of_further, list_elem_of_here.
  - vm_compute. lia.
Defined.

(** X17.  When every title can be computed, [main] reports on every
    upload, in order, and what it reports for an upload depends on that
    upload alone: an upload that fails neither stops the loop nor
    changes the report of another upload. *)
Theorem main_reports_each_upload {PF : PyFloat} (stem : string -> string)
    (show : Frame pyval -> Frame F -> exn + unit)
    (fs : gmap string (list string)) (uploaded_files : list Upload) :
  Forall (fun u => is_Some (get_tab_title stem u)) uploaded_files ->
  (main stem show fs uploaded_files).2
  = Reports (outcome show <$> uploaded_files).
Proof.
  intros Hall. unfold main. destruct uploaded_files as [|u rest]; [done|].
  destruct (mapM (get_tab_title stem) (u :: rest)) as [titles|] eqn:Hm.
  - pose proof (main_loop_reports show fs (u :: rest)) as Hr.
    destruct (main_loop show fs (u :: rest)) as [fs' reports]. cbn in *.
    by rewrite Hr.
  - apply mapM_None, Exists_exists in Hm as (u' & Hin & Hnone).
    rewrite Forall_forall in Hall. apply Hall in Hin as [t Ht]. congruence.
Qed.

Lemma main_reports_each_upload_witness :
  (main (PF := Decimal.floats) Pathlib.stem (fun _ _ => inr tt) ∅
     [ mkUpload good_name truncated_file;
       mkUpload "copy_2025_05_26_14_5_sick_pico4.txt" scenario_file ]).2
  = Reports [Some StopIteration; None].
Proof.
  rewrite (main_reports_each_upload (PF := Decimal.floats)).
  - reflexivity.
  - repeat constructor; by eexists.
Defined.

(** X18.  What the loop does to the working directory.  A file whose
    name is not the name of an upload is never touched.  With uploads of
    different names, the file of an upload is in the directory afterwards
    exactly when the upload ended with an error, and then it holds the
    upload; a file that was there before under the name of an upload is
    overwritten and, when the upload succeeds, removed. *)
Theorem main_loop_files {PF : PyFloat}
    (show : Frame pyval -> Frame F -> exn + unit)
    (uploaded_files : list Upload) (fs : gmap string (list string)) :
  NoDup (name <$> uploaded_files) ->
  (forall n, n ∉ name <$> uploaded_files ->
     (main_loop show fs uploaded_files).1 !! n = fs !! n)
  /\ (forall u, u ∈ uploaded_files ->
        (main_loop show fs uploaded_files).1 !! name u
        = match outcome show u with
          | Some _ => Some (getbuffer u)
          | None => None
          end).
Proof.
  intros Hnd. split; [apply main_loop_untouched|].
  revert fs Hnd. induction uploaded_files as [|u0 rest IH]; intros fs Hnd u Hin.
  { by apply elem_of_nil in Hin. }
  cbn [fmap list_fmap] in Hnd. apply NoDup_cons in Hnd as [Hfresh Hnd].
  rewrite main_loop_cons. cbn [fst].
  apply elem_of_cons in Hin as [-> | Hin].
  - rewrite main_loop_untouched by done.
    rewrite process_upload_outcome. cbn [fst].
    destruct (outcome show u0).
    + apply lookup_insert_eq.
    + apply lookup_delete_eq.
  - by apply IH.
Qed.

Lemma main_loop_files_witness :
  let fs : gmap string (list string) :=
    {[ "notes.txt" := [line "keep"]; "ok.txt" := [line "old"] ]} in
  let result :=
    (main_loop (PF := Decimal.floats) (fun _ _ => inr tt) fs
       [mkUpload "bad.txt" truncated_file; mkUpload "ok.txt" scenario_file]).1
  in
  result !! "notes.txt" = Some [line "keep"]
  /\ result !! "bad.txt" = Some truncated_file
  /\ result !! "ok.txt" = None.
Proof.
  intros fs result.
  destruct (main_loop_files (PF := Decimal.floats) (fun _ _ => inr tt)
              [mkUpload "bad.txt" truncated_file;
               mkUpload "ok.txt" scenario_file] fs) as [Hout Hin].
  { repeat constructor; intros H; apply list_elem_of_In in H; cbn in H;
      intuition discriminate. }
  split_and!.
  - unfold result. rewrite Hout.
    + reflexivity.
    + intros H. apply list_elem_of_In in H. cbn in H. intuition discriminate.
  - apply (Hin (mkUpload "bad.txt" truncated_file)). apply list_elem_of_here.
  - apply (Hin (mkUpload "ok.txt" scenario_file)).
    apply list_elem_of_further, list_elem_of_here.
Defined.

(** X19.  The two axes are kept apart: storing anything under a label
    that does not start with [x] (a Y column, say) before summarising
    leaves the [mean_x] and [median_x] columns of the summary as they
    are. *)
Theorem x_summary_ignores_other_columns {PF : PyFloat} (df : Frame F)
    (key : string) (v : list F) :
  Py.startswith "x" key = false ->
  Pd.getitem "mean_x" (summary_of (Pd.set_column key v df))
    = Pd.getitem "mean_x" (summary_of df)
  /\ Pd.getitem "median_x" (summary_of (Pd.set_column key v df))
    = Pd.getitem "median_x" (summary_of df).
Proof.
  intros Hk.
  destruct (summary_of_columns df "x") as [Hm Hd]; [by left|].
  destruct (summary_of_columns (Pd.set_column key v df) "x") as [Hm' Hd'];
    [by left|].
  change ("mean_" +:+ "x") with "mean_x" in *.
  change ("median_" +:+ "x") with "median_x" in *.
  rewrite Hm, Hd, Hm', Hd'.
  fold (row_means "x" (Pd.set_column key v df)) (row_means "x" df).
  fold (row_medians "x" (Pd.set_column key v df)) (row_medians "x" df).
  by rewrite row_means_set_column, row_medians_set_column.
Qed.

Lemma x_summary_ignores_other_columns_witness :
  Pd.getitem "mean_x"
    (summary_of (PF := Decimal.floats)
       (Pd.set_column "y_0" [Some 9%Q; Some 9%Q] example_table))
  = Pd.getitem "mean_x" (summary_of (PF := Decimal.floats) example_table)
  /\ Pd.getitem "median_x"
       (summary_of (PF := Decimal.floats)
          (Pd.set_column "y_0" [Some 9%Q; Some 9%Q] example_table))
     = Pd.getitem "median_x" (summary_of (PF := Decimal.floats) example_table).
Proof.
  apply (x_summary_ignores_other_columns (PF := Decimal.floats)
           example_table "y_0" [Some 9%Q; Some 9%Q]).
  reflexivity.
Defined.

(** ** The temporary file of an upload that fails *)

Section TemporaryFile.
Context {PF : PyFloat}.
Variable show : Frame pyval -> Frame F -> exn + unit.

(** After the loop, the file of an upload is there exactly when the
    upload ended with an error, for uploads of different names. *)
Lemma main_loop_file_of_upload (uploaded_files : list Upload) :
  forall (fs : gmap string (list string)) (u : Upload),
    NoDup (name <$> uploaded_files) ->
    u ∈ uploaded_files ->
    (main_loop show fs uploaded_files).1 !! name u
    = match outcome show u with
      | Some _ => Some (getbuffer u)
      | None => None
      end.
Proof.
  induction uploaded_files as [|u0 rest IH]; intros fs u Hnd Hin.
  { by apply elem_of_nil in Hin. }
  cbn [fmap list_fmap] in Hnd. apply NoDup_cons in Hnd as [Hfresh Hnd].
  rewrite main_loop_cons. cbn [fst].
  apply elem_of_cons in Hin as [-> | Hin].
  - rewrite main_loop_untouched by done.
    rewrite process_upload_outcome. cbn [fst].
    destruct (outcome show u0).
    + apply lookup_insert_eq.
    + apply lookup_delete_eq.
  - by apply IH.
Qed.

(** An upload on which [load_data] raises ends with that error. *)
Lemma outcome_load_error (u : Upload) (e : exn) :
  load_data (getbuffer u) = inl e -> outcome show u = Some e.
Proof. unfold outcome. by intros ->. Qed.

End TemporaryFile.

(** C5, where the code fails it.  Take uploads that [main] processes:
    their names are different and give a tab title each, so that line 122
    passes and the loop of line 124 runs.  For every upload among them
    that ends with an error, be it raised by [load_data] or by the
    presentation calls, the handler of line 165 reports the error and the
    file written at line 131 is still in the directory when [main]
    returns, with the content of the upload: [unlink] (line 163) is the
    last statement of the [try] body and is not reached. *)
Theorem failed_upload_stays_on_disk {PF : PyFloat} (stem : string -> string)
    (show : Frame pyval -> Frame F -> exn + unit)
    (fs : gmap string (list string)) (uploaded_files : list Upload)
    (u : Upload) (e : exn) :
  Forall (fun f => is_Some (get_tab_title stem f)) uploaded_files ->
  NoDup (name <$> uploaded_files) ->
  u ∈ uploaded_files ->
  outcome show u = Some e ->
  (main stem show fs uploaded_files).2
  = Reports (outcome show <$> uploaded_files)
  /\ (main stem show fs uploaded_files).1 !! name u = Some (getbuffer u).
Proof.
  intros Htitles Hnd Hin He. unfold main.
  destruct uploaded_files as [|u0 rest]; [by apply elem_of_nil in Hin|].
  destruct (mapM (get_tab_title stem) (u0 :: rest)) as [titles|] eqn:Hm.
  - pose proof (main_loop_reports show fs (u0 :: rest)) as Hr.
    pose proof (main_loop_file_of_upload show (u0 :: rest) fs u Hnd Hin) as Hf.
    destruct (main_loop show fs (u0 :: rest)) as [fs' reports]. cbn in *.
    rewrite Hr. split; [done|]. by rewrite Hf, He.
  - apply mapM_None, Exists_exists in Hm as (u' & Hin' & Hnone).
    rewrite Forall_forall in Htitles. apply Htitles in Hin' as [t Ht].
    congruence.
Qed.

(** The upload [scan_2025_05_26_14_5_sick_pico3.txt] gets the tab title
    [Pico 3 - 2025/05/26 14:05]; it holds [truncated_file], loading it
    raises [StopIteration], and its file is left in the directory. *)
Lemma failed_upload_stays_on_disk_witness :
  get_tab_title Pathlib.stem (mkUpload good_name truncated_file)
  = Some "Pico 3 - 2025/05/26 14:05"
  /\ load_data (PF := Decimal.floats) truncated_file = inl StopIteration
  /\ (main (PF := Decimal.floats) Pathlib.stem (fun _ _ => inr tt) ∅
        [mkUpload good_name truncated_file]).2
     = Reports [Some StopIteration]
  /\ (main (PF := Decimal.floats) Pathlib.stem (fun _ _ => inr tt) ∅
        [mkUpload good_name truncated_file]).1 !! good_name
     = Some truncated_file.
Proof.
  split; [reflexivity|]. split; [reflexivity|].
  apply (failed_upload_stays_on_disk (PF := Decimal.floats) Pathlib.stem
           (fun _ _ => inr tt) ∅ [mkUpload good_name truncated_file]
           (mkUpload good_name truncated_file) StopIteration).
  - repeat constructor. by eexists.
  - repeat constructor. apply not_elem_of_nil.
  - apply list_elem_of_here.
  - apply outcome_load_error. reflexivity.
Defined.
